(** * cm4.data.data: the multi-service data manager

    A shallow embedding of [src/cm4/data/data.py] (class [Data]) and the
    properties of its operations [config], [ls], [add], [get] and [delete].

    The class talks to four collaborators whose code is not part of the
    embedded sources: the configuration reader [Config], the metadata
    database [LocalDBProvider] and the two storage services
    [LocalStorageProvider] and [AzureStorageProvider].  They appear below as
    interfaces ([DBProvider.t], [StorageProvider.t], [Collaborators]) and the
    methods of [Data] are stated for every implementation of them.  A small
    reference implementation ([Ref]) is used to run the methods on concrete
    inputs.

    Loading the YAML file, the folders and the cloud account behind the
    collaborators, and the command line of [__main__] are outside the
    embedding. *)

From stdpp Require Import base strings gmap pretty list.
From Stdlib Require Import ZArith Lia Ascii String.

#[local] Open Scope string_scope.
#[local] Open Scope list_scope.
#[local] Set Warnings "-register-all".

(** ** Python values *)

(** The values a YAML configuration document is made of.  Floating point
    scalars are left out: no key read by [Data.config] is numeric. *)
Inductive value :=
  | VNone
  | VBool (b : bool)
  | VInt (z : Z)
  | VStr (s : string)
  | VList (l : list value)
  | VDict (m : gmap string value).

(** Python truth value testing ([if x:]). *)
Definition truthy (v : value) : bool :=
  match v with
  | VNone => false
  | VBool b => b
  | VInt z => negb (z =? 0)%Z
  | VStr s => negb (String.eqb s "")
  | VList l => match l with [] => false | _ :: _ => true end
  | VDict m => negb (bool_decide (dom m = ∅))
  end.

(** [x == 'literal'] for a configuration value [x]. *)
Definition eq_str (v : value) (lit : string) : bool :=
  match v with
  | VStr s => String.eqb s lit
  | _ => false
  end.

(** ** Exceptions and the state-and-exception monad *)

Inductive exn :=
  | KeyError (key : value)
  | TypeError (msg : string)
  | AttributeError (attr : string)
  | SystemExit
  | Exception (msg : string)
  | OSError (msg : string).

Inductive outcome (A : Type) :=
  | Returns (a : A)
  | Raises (e : exn).
Arguments Returns {A} a.
Arguments Raises {A} e.

(** A computation over a mutable state [St]: it returns or raises, and in
    both cases leaves a state behind (what was mutated before a raise stays
    mutated, as in Python). *)
Definition M (St A : Type) : Type := St → outcome A * St.

Definition ret {St A} (a : A) : M St A := λ st, (Returns a, st).
Definition raise {St A} (e : exn) : M St A := λ st, (Raises e, st).
Definition bind {St A B} (m : M St A) (k : A → M St B) : M St B :=
  λ st, match m st with
        | (Returns a, st') => k a st'
        | (Raises e, st') => (Raises e, st')
        end.
Definition lift {St A} (o : outcome A) : M St A := λ st, (o, st).
Definition gets {St A} (f : St → A) : M St A := λ st, (Returns (f st), st).
Definition modify {St} (f : St → St) : M St unit := λ st, (Returns tt, f st).

Notation "x <- m ;; k" := (bind m (λ x, k))
  (at level 100, m at next level, right associativity,
   format "'[v' x  <-  m  ;;  '/' k ']'").
Notation "m >> k" := (bind m (λ _, k))
  (at level 100, right associativity, format "'[v' m  >>  '/' k ']'").

(** [if c: body] *)
Definition when {St} (c : bool) (body : M St unit) : M St unit :=
  if c then body else ret tt.

(** [for x in xs: body x] *)
Fixpoint for_each {St A} (xs : list A) (body : A → M St unit) : M St unit :=
  match xs with
  | [] => ret tt
  | x :: xs' => body x >> for_each xs' body
  end.

(** ** The configuration reader *)

(** ['a.b.c'.split('.')] *)
Fixpoint split_dots (s : string) : list string :=
  match s with
  | EmptyString => [""]
  | String c s' =>
      if Ascii.eqb c "."%char then "" :: split_dots s'
      else match split_dots s' with
           | seg :: rest => String c seg :: rest
           | [] => [String c ""]
           end
  end.

Fixpoint lookup_path (path : list string) (v : value) : value :=
  match path with
  | [] => v
  | k :: rest =>
      match v with
      | VDict m => match m !! k with
                   | Some v' => lookup_path rest v'
                   | None => VNone
                   end
      | _ => VNone
      end
  end.

(** Modelled from the spec: the [get] method of the configuration objects
    ([cm4.configuration.config.Config] is absent from the sources).  The
    configuration is "a structured configuration document" whose options are
    named by dotted keys such as [default.db] or
    [service.azure.credentials.<account-option>]: [get] follows the dotted
    key through the nested mappings and gives [None] where the path leaves
    the document.  A value that is not a mapping has no [get] attribute. *)
Definition conf_get (key : string) (conf : value) : outcome value :=
  match conf with
  | VDict _ => Returns (lookup_path (split_dots key) conf)
  | _ => Raises (AttributeError "get")
  end.

(** ** Records and collaborator interfaces *)

(** The metadata record (class [CloudFile], absent from the sources; the
    four attributes are the ones [Data.ls] reads). *)
Record CloudFile := {
  name : string;
  service : string;
  size : Z;
  url : string
}.

(** Modelled from the spec: the metadata store behind [self._db]
    ([cm4.data.db.LocalDBProvider] is absent from the sources).  [list_files]
    "returns all records" and [get] "returns an explicit not-found signal
    rather than throwing", so both are reads of the store's state [D];
    [add] and [delete] update it and may fail. *)
Module DBProvider.
Record t (D : Type) := {
  list_files : D → list CloudFile;
  add : CloudFile → D → outcome unit * D;
  get : string → D → option CloudFile;
  delete : CloudFile → D → outcome unit * D
}.
Arguments list_files {D}.
Arguments add {D}.
Arguments get {D}.
Arguments delete {D}.
End DBProvider.

(** Modelled from the spec: a storage service
    ([cm4.data.storage.LocalStorageProvider] and [AzureStorageProvider] are
    absent from the sources).  Each of upload ([add]), download ([get]) and
    remove ([delete]) acts on the state [S] of the storage world and returns
    or raises. *)
Module StorageProvider.
Record t (S : Type) := {
  add : string → S → outcome CloudFile * S;
  get : CloudFile → string → S → outcome unit * S;
  delete : CloudFile → S → outcome unit * S
}.
Arguments add {S}.
Arguments get {S}.
Arguments delete {S}.
End StorageProvider.

(** The constructors imported at the top of [data.py].  [Config path] is the
    document loaded from the file at [path]; the constructors of the
    providers receive configuration values and build the provider. *)
Class Collaborators (D S : Type) := {
  Config : string → value;
  LocalDBProvider : value → DBProvider.t D;
  LocalStorageProvider : value → StorageProvider.t S;
  AzureStorageProvider : value → value → value → StorageProvider.t S
}.

(** ** The world outside the [Data] object *)

(** Calls that reach a collaborator, in the order they are made. *)
Inductive call :=
  | DbListFiles
  | DbAdd (f : CloudFile)
  | DbGet (file_name : string)
  | DbDelete (f : CloudFile)
  | StorageAdd (key : string) (file_path : string)
  | StorageGet (key : string) (f : CloudFile) (dest_folder : string)
  | StorageDelete (key : string) (f : CloudFile).

Definition is_storage_call (c : call) : bool :=
  match c with
  | StorageAdd _ _ | StorageGet _ _ _ | StorageDelete _ _ => true
  | _ => false
  end.

(** The metadata store, the storage services, the lines printed so far and
    the log of collaborator calls.  The methods of the metadata store act on
    [db] alone and those of the storage services on [store] alone: the two
    are kept in different places (the database folder, the storage folder
    or the cloud container).  The log is not in the source; it records the
    order of the calls so that properties can speak about it. *)
Record World (D S : Type) := {
  db : D;
  store : S;
  stdout : list string;
  calls : list call
}.
Arguments db {D S}.
Arguments store {D S}.
Arguments stdout {D S}.
Arguments calls {D S}.
Arguments Build_World {D S}.

Section WorldOps.
Context {D S : Type}.

Definition print (line : string) : M (World D S) unit :=
  modify (λ w, Build_World (db w) (store w) (stdout w ++ [line]) (calls w)).

Definition log (c : call) : M (World D S) unit :=
  modify (λ w, Build_World (db w) (store w) (stdout w) (calls w ++ [c])).

(** Run a method of the metadata store on the [db] component. *)
Definition on_db {A} (f : D → outcome A * D) : M (World D S) A :=
  λ w, let '(r, d') := f (db w) in
       (r, Build_World d' (store w) (stdout w) (calls w)).

(** Run a method of a storage service on the [store] component. *)
Definition on_store {A} (f : S → outcome A * S) : M (World D S) A :=
  λ w, let '(r, s') := f (store w) in
       (r, Build_World (db w) s' (stdout w) (calls w)).
End WorldOps.

(** ** Formatting *)

(** What [%s] receives in [_print_row]: a string, or the integer size. *)
Inductive printable :=
  | PStr (s : string)
  | PInt (z : Z).

Definition str (p : printable) : string :=
  match p with
  | PStr s => s
  | PInt z => pretty z
  end.

Fixpoint spaces (n : nat) : string :=
  match n with
  | O => ""
  | Datatypes.S n' => String " "%char (spaces n')
  end.

(** [%-Ns]: left-justified in a field of at least [width] characters; a
    longer string is not cut.  (Lengths count bytes, which are the
    characters of an ASCII string.) *)
Definition ljust (width : nat) (s : string) : string :=
  (s ++ spaces (width - String.length s))%string.

(** [" %-35s %-10s %-10s %-50s" % (a, b, c, d)] *)
Definition format_row (a b c d : printable) : string :=
  (" " ++ ljust 35 (str a) ++ " " ++ ljust 10 (str b) ++ " "
       ++ ljust 10 (str c) ++ " " ++ ljust 50 (str d))%string.

(** [d[key]] on a dictionary with string keys.  No other value equals a
    string, so a hashable key of another type is simply missing; lists and
    mappings are not hashable. *)
Definition getitem {A} (d : gmap string A) (key : value) : outcome A :=
  match key with
  | VStr k => match d !! k with
              | Some a => Returns a
              | None => Raises (KeyError key)
              end
  | VList _ | VDict _ => Raises (TypeError "unhashable type")
  | _ => Raises (KeyError key)
  end.

(** [x or lit] for an optional string [x]: [None] and [''] are falsy. *)
Definition or_else (x : option string) (lit : string) : string :=
  match x with
  | Some s => if String.eqb s "" then lit else s
  | None => lit
  end.

(** ** class Data *)

Module Data.

(** The instance attributes of [self]. *)
Record t (D S : Type) := {
  _db : option (DBProvider.t D);
  _conf : value;
  _providers : gmap string (StorageProvider.t S)
}.
Arguments _db {D S}.
Arguments _conf {D S}.
Arguments _providers {D S}.
Arguments Build_t {D S}.

Section Methods.
Context {D S : Type}.

Definition __init__ : t D S :=
  {| _db := None; _conf := VDict ∅; _providers := ∅ |}.

(** Attribute assignments on [self]. *)
Definition set_conf (v : value) : M (t D S) unit :=
  modify (λ self, Build_t (_db self) v (_providers self)).
Definition set_db (p : DBProvider.t D) : M (t D S) unit :=
  modify (λ self, Build_t (Some p) (_conf self) (_providers self)).
Definition set_provider (key : string) (p : StorageProvider.t S)
  : M (t D S) unit :=
  modify (λ self, Build_t (_db self) (_conf self) (<[key := p]> (_providers self))).

Definition config {C : Collaborators D S} (config_path : string) : M (t D S) unit :=
  conf <- lift (conf_get "data" (Config config_path)) ;;
  set_conf conf >>
  (* Set DB provider. *)
  db_provider <- lift (conf_get "default.db" conf) ;;
  when (eq_str db_provider "local")
    (db_path <- lift (conf_get "db.local.CMDATA_DB_FOLDER" conf) ;;
     set_db (LocalDBProvider db_path)) >>
  (* Check for local storage provider. *)
  storage_path <- lift (conf_get "service.local.CMDATA_STORAGE_FOLDER" conf) ;;
  when (truthy storage_path)
    (set_provider "local" (LocalStorageProvider storage_path)) >>
  (* Check for Azure provider. *)
  az_conf <- lift (conf_get "service.azure" conf) ;;
  when (truthy az_conf)
    (az_act <- lift (conf_get "credentials.AZURE_STORAGE_ACCOUNT" az_conf) ;;
     az_key <- lift (conf_get "credentials.AZURE_STORAGE_KEY" az_conf) ;;
     az_container <- lift (conf_get "container" az_conf) ;;
     when (truthy az_act && truthy az_key)
       (set_provider "azure" (AzureStorageProvider az_act az_key az_container))) >>
  (* Set a default storage provider. *)
  default_storage_provider <- lift (conf_get "default.service" conf) ;;
  providers <- gets _providers ;;
  p <- lift (getitem providers default_storage_provider) ;;
  set_provider "default" p.

(** [self._db.<attr>]: the store, or the attribute error of [None]. *)
Definition db_attr (self : t D S) (attr : string)
  : M (World D S) (DBProvider.t D) :=
  match _db self with
  | Some p => ret p
  | None => raise (AttributeError attr)
  end.

Definition _print_row (file_name service size url : printable)
  : M (World D S) unit :=
  print (format_row file_name service size url).

Definition ls (self : t D S) : M (World D S) (list CloudFile) :=
  p <- db_attr self "list_files" ;;
  log DbListFiles >>
  files <- gets (λ w, DBProvider.list_files p (db w)) ;;
  _print_row (PStr "FILE") (PStr "SERVICE") (PStr "SIZE") (PStr "URL") >>
  for_each files (λ f,
    _print_row (PStr (name f)) (PStr (service f)) (PInt (size f)) (PStr (url f))) >>
  ret files.

Definition add (self : t D S) (provider : option string) (file_path : string)
  : M (World D S) CloudFile :=
  let key := or_else provider "default" in
  sp <- lift (getitem (_providers self) (VStr key)) ;;
  log (StorageAdd key file_path) >>
  new_cloud_file <- on_store (StorageProvider.add sp file_path) ;;
  p <- db_attr self "add" ;;
  log (DbAdd new_cloud_file) >>
  on_db (DBProvider.add p new_cloud_file) >>
  ret new_cloud_file.

Definition get (self : t D S) (file_name : string) (dest_folder : option string)
  : M (World D S) unit :=
  (* Get db entry for this file *)
  p <- db_attr self "get" ;;
  log (DbGet file_name) >>
  cloud_file <- gets (λ w, DBProvider.get p file_name (db w)) ;;
  match cloud_file with
  | None =>
      print "Requested file not found. Use `ls` to see a list of file names." >>
      raise SystemExit
  | Some cloud_file =>
      let dest_folder := or_else dest_folder "." in
      sp <- lift (getitem (_providers self) (VStr (service cloud_file))) ;;
      log (StorageGet (service cloud_file) cloud_file dest_folder) >>
      on_store (StorageProvider.get sp cloud_file dest_folder)
  end.

Definition delete (self : t D S) (file_name : string) : M (World D S) unit :=
  p <- db_attr self "get" ;;
  log (DbGet file_name) >>
  cloud_file <- gets (λ w, DBProvider.get p file_name (db w)) ;;
  match cloud_file with
  | None => raise (Exception (file_name ++ " not found in the database.")%string)
  | Some cloud_file =>
      sp <- lift (getitem (_providers self) (VStr (service cloud_file))) ;;
      log (StorageDelete (service cloud_file) cloud_file) >>
      on_store (StorageProvider.delete sp cloud_file) >>
      p' <- db_attr self "delete" ;;
      log (DbDelete cloud_file) >>
      on_db (DBProvider.delete p' cloud_file)
  end.

End Methods.
End Data.

(** ** The command line *)

(** The dictionary [docopt] returns for the usage patterns of [data.py]:
    the command words as booleans and the positional arguments as strings
    ([None] where the pattern has none).  Parsing the command line is
    [docopt]'s business and is not embedded. *)
Module Docopt.
Record t := {
  ls : bool;
  dir : bool;
  add : bool;
  del : bool;
  get : bool;
  FILE : option string;
  SERVICE : option string;
  DEST_FOLDER : option string
}.
End Docopt.

(** Truth value of an optional string ([None] and [''] are falsy). *)
Definition truthy_str (x : option string) : bool :=
  match x with
  | Some s => negb (String.eqb s "")
  | None => false
  end.

(** The default of [config_path]. *)
Definition default_config_path : string := "~/.cloudmesh/cloudmesh4.yaml".

Section Main.
Context {D S : Type} {C : Collaborators D S}.

(** The body of [if __name__ == "__main__":], from the parsed arguments on.
    [cd] is local to the invocation; an exception of [cd.config()] ends it
    before any operation. *)
Definition main (arguments : Docopt.t) : M (World D S) unit :=
  λ w,
    match Data.config default_config_path Data.__init__ with
    | (Raises e, _) => (Raises e, w)
    | (Returns _, cd) =>
        let file := default "" (Docopt.FILE arguments) in
        (if Docopt.ls arguments || Docopt.dir arguments then
           Data.ls cd >> ret tt
         else if Docopt.add arguments && truthy_str (Docopt.FILE arguments) then
           Data.add cd (Docopt.SERVICE arguments) file >> ret tt
         else if Docopt.del arguments && truthy_str (Docopt.FILE arguments) then
           Data.delete cd file
         else if Docopt.get arguments && truthy_str (Docopt.FILE arguments) then
           Data.get cd file (Docopt.DEST_FOLDER arguments)
         else ret tt) w
    end.
End Main.

(** ** Vocabulary of the properties *)

(** The value of an option of the configuration document, named by its
    dotted key from the root ([None] when it is missing). *)
Definition option_value (key : string) (doc : value) : value :=
  lookup_path (split_dots key) doc.

(** An option is set when it is present with a value Python takes for true
    (an empty string, [0], [false] and empty collections count as not set,
    which is how [config] tests them). *)
Definition option_set (key : string) (doc : value) : bool :=
  truthy (option_value key doc).

Definition is_dict (v : value) : bool :=
  match v with VDict _ => true | _ => false end.

(** A document on which [config] calls [get] on something that is not a
    mapping: the document itself, its [data] section, or a [service.azure]
    entry that is set. *)
Definition malformed (doc : value) : Prop :=
  let conf := lookup_path ["data"] doc in
  let az_conf := lookup_path ["service"; "azure"] conf in
  is_dict doc = false ∨ is_dict conf = false ∨
  (truthy az_conf = true ∧ is_dict az_conf = false).

Definition wellformed (doc : value) : Prop :=
  let conf := lookup_path ["data"] doc in
  let az_conf := lookup_path ["service"; "azure"] conf in
  is_dict doc = true ∧ is_dict conf = true ∧
  (truthy az_conf = true → is_dict az_conf = true).

(** The name under [default.service] is one of the two services and the
    options that service needs are set. *)
Definition default_service_configured (doc : value) : Prop :=
  (option_value "data.default.service" doc = VStr "local"
   ∧ option_set "data.service.local.CMDATA_STORAGE_FOLDER" doc = true)
  ∨ (option_value "data.default.service" doc = VStr "azure"
     ∧ option_set "data.service.azure.credentials.AZURE_STORAGE_ACCOUNT" doc = true
     ∧ option_set "data.service.azure.credentials.AZURE_STORAGE_KEY" doc = true).

(** The header line of the listing. *)
Definition header : string :=
  " FILE                                SERVICE    SIZE       URL                                               ".

(** The line printed for one record. *)
Definition row (f : CloudFile) : string :=
  format_row (PStr (name f)) (PStr (service f)) (PInt (size f)) (PStr (url f)).

(** A record whose four fields fit their columns. *)
Definition fits (f : CloudFile) : Prop :=
  (String.length (name f) ≤ 35)%nat ∧ (String.length (service f) ≤ 10)%nat ∧
  (String.length (pretty (size f)) ≤ 10)%nat ∧ (String.length (url f) ≤ 50)%nat.

Definition is_attribute_error {A} (r : outcome A) : Prop :=
  ∃ attr, r = Raises (AttributeError attr).

(** Every operation on [self] ends in an attribute error. *)
Definition all_operations_attribute_error {D S} (self : Data.t D S) : Prop :=
  ∀ (w : World D S) (provider : option string) (file_path file_name : string)
    (dest_folder : option string),
    is_attribute_error (Data.ls self w).1
    ∧ is_attribute_error (Data.add self provider file_path w).1
    ∧ is_attribute_error (Data.get self file_name dest_folder w).1
    ∧ is_attribute_error (Data.delete self file_name w).1.

(** ** A reference implementation of the collaborators

    Used to run [Data] on concrete inputs.  It follows the contracts of the
    spec: the metadata store is a table keyed by name ([add] upserts), an
    upload fails when the local file does not exist and returns a record
    carrying the identifier of its service, download and remove fail when
    the object is absent. *)
Module Ref.

Definition D : Type := gmap string CloudFile.

Definition db_provider : DBProvider.t D :=
  {| DBProvider.list_files := λ d, (map_to_list d).*2;
     DBProvider.add := λ f d, (Returns tt, <[name f := f]> d);
     DBProvider.get := λ n d, d !! n;
     DBProvider.delete := λ f d, (Returns tt, base.delete (name f) d) |}.

(** Local files (path to size) and the objects held by the services. *)
Record S := {
  disk : gmap string Z;
  objects : gset string
}.

Definition storage (ident : string) : StorageProvider.t S :=
  {| StorageProvider.add := λ file_path s,
       match disk s !! file_path with
       | None => (Raises (OSError "No such file"), s)
       | Some sz =>
           let u := (ident ++ "://" ++ file_path)%string in
           (Returns {| name := file_path; service := ident; size := sz; url := u |},
            {| disk := disk s; objects := {[u]} ∪ objects s |})
       end;
     StorageProvider.get := λ f dest s,
       if decide (url f ∈ objects s)
       then (Returns tt,
             {| disk := <[(dest ++ "/" ++ name f)%string := size f]> (disk s);
                objects := objects s |})
       else (Raises (OSError "No such object"), s);
     StorageProvider.delete := λ f s,
       if decide (url f ∈ objects s)
       then (Returns tt, {| disk := disk s; objects := objects s ∖ {[url f]} |})
       else (Raises (OSError "No such object"), s) |}.

(** The collaborators, reading the document [doc] at every path. *)
Definition collaborators (doc : value) : Collaborators D S :=
  {| Config := λ _, doc;
     LocalDBProvider := λ _, db_provider;
     LocalStorageProvider := λ _, storage "local";
     AzureStorageProvider := λ _ _ _, storage "azure" |}.

Definition dict (l : list (string * value)) : value := VDict (list_to_map l).

(** A document with a local store and the local service as default. *)
Definition doc_local (db_name : string) : value :=
  dict [("data", dict [
    ("default", dict [("db", VStr db_name); ("service", VStr "local")]);
    ("db", dict [("local", dict [("CMDATA_DB_FOLDER", VStr "/tmp/db")])]);
    ("service", dict [
       ("local", dict [("CMDATA_STORAGE_FOLDER", VStr "/tmp/store")])])])].

(** The same with [azure] as default, whose key is missing. *)
Definition doc_azure_default : value :=
  dict [("data", dict [
    ("default", dict [("db", VStr "local"); ("service", VStr "azure")]);
    ("db", dict [("local", dict [("CMDATA_DB_FOLDER", VStr "/tmp/db")])]);
    ("service", dict [
       ("local", dict [("CMDATA_STORAGE_FOLDER", VStr "/tmp/store")]);
       ("azure", dict [("credentials", dict [
          ("AZURE_STORAGE_ACCOUNT", VStr "acct")])])])])].

(** Azure with account and key, and no container option. *)
Definition doc_azure_no_container : value :=
  dict [("data", dict [
    ("default", dict [("db", VStr "local"); ("service", VStr "azure")]);
    ("db", dict [("local", dict [("CMDATA_DB_FOLDER", VStr "/tmp/db")])]);
    ("service", dict [
       ("azure", dict [("credentials", dict [
          ("AZURE_STORAGE_ACCOUNT", VStr "acct");
          ("AZURE_STORAGE_KEY", VStr "secret")])])])])].

Definition notes : CloudFile :=
  {| name := "notes.txt"; service := "local"; size := 42;
     url := "local://notes.txt" |}.

Definition stray : CloudFile :=
  {| name := "old.bin"; service := "s3"; size := 7; url := "s3://old.bin" |}.

(** A world with one local file, nothing stored and nothing tracked. *)
Definition w0 : World D S :=
  {| db := ∅; store := {| disk := {["notes.txt" := 42%Z]}; objects := ∅ |};
     stdout := []; calls := [] |}.

(** [notes] tracked and stored. *)
Definition w1 : World D S :=
  {| db := {["notes.txt" := notes]};
     store := {| disk := {["notes.txt" := 42%Z]};
                 objects := {["local://notes.txt"]} |};
     stdout := []; calls := [] |}.

(** [notes] tracked, but its object lost. *)
Definition w2 : World D S :=
  {| db := {["notes.txt" := notes]};
     store := {| disk := ∅; objects := ∅ |};
     stdout := []; calls := [] |}.

(** A record of a service that is not registered. *)
Definition w3 : World D S :=
  {| db := {["old.bin" := stray]};
     store := {| disk := ∅; objects := ∅ |};
     stdout := []; calls := [] |}.

(** A record whose URL is longer than the 50 characters of its column. *)
Definition report : CloudFile :=
  {| name := "report.pdf"; service := "azure"; size := 2048;
     url := "https://acct.blob.core.windows.net/container/report.pdf" |}.

Definition w4 : World D S :=
  {| db := {["report.pdf" := report]};
     store := {| disk := ∅; objects := ∅ |};
     stdout := []; calls := [] |}.

(** [cm4 data ls], and [cm4 data add ""] with its empty file name. *)
Definition cmd_ls : Docopt.t :=
  {| Docopt.ls := true; Docopt.dir := false; Docopt.add := false;
     Docopt.del := false; Docopt.get := false; Docopt.FILE := None;
     Docopt.SERVICE := None; Docopt.DEST_FOLDER := None |}.

Definition cmd_add_nothing : Docopt.t :=
  {| Docopt.ls := false; Docopt.dir := false; Docopt.add := true;
     Docopt.del := false; Docopt.get := false; Docopt.FILE := Some "";
     Docopt.SERVICE := None; Docopt.DEST_FOLDER := None |}.

(** The object configured from [doc_local "local"]. *)
Definition self_local : Data.t D S :=
  {| Data._db := Some db_provider;
     Data._conf := lookup_path ["data"] (doc_local "local");
     Data._providers := <["default" := storage "local"]> {["local" := storage "local"]} |}.

End Ref.


(** ** Running the monad *)

Lemma bind_returns {St A B} (m : M St A) (k : A → M St B) st a st' :
  m st = (Returns a, st') → bind m k st = k a st'.
Proof. intros H. unfold bind. by rewrite H. Qed.

Lemma bind_raises {St A B} (m : M St A) (k : A → M St B) st e st' :
  m st = (Raises e, st') → bind m k st = (Raises e, st').
Proof. intros H. unfold bind. by rewrite H. Qed.

Lemma bind_assoc {St A B C} (m : M St A) (k : A → M St B) (k' : B → M St C) st :
  bind (bind m k) k' st = bind m (λ x, bind (k x) k') st.
Proof. unfold bind. by destruct (m st) as [[a|e] st']. Qed.

(** Unfold an operation on tracked files down to the collaborator calls. *)
Ltac run :=
  cbv beta iota zeta delta
    [Data.add Data.get Data.delete Data.db_attr
     bind ret raise lift gets modify log print on_db on_store getitem].

(** ** Formatting lemmas *)

Lemma length_append (s1 s2 : string) :
  String.length (s1 ++ s2)%string = (String.length s1 + String.length s2)%nat.
Proof. induction s1 as [|c s1 IH]; simpl; [done | by rewrite IH]. Qed.

Lemma length_spaces n : String.length (spaces n) = n.
Proof. induction n; simpl; congruence. Qed.

Lemma length_ljust width s :
  String.length (ljust width s) = Nat.max width (String.length s).
Proof. unfold ljust. rewrite length_append, length_spaces. lia. Qed.

Lemma length_format_row a b c d :
  String.length (format_row a b c d) =
    (4 + Nat.max 35 (String.length (str a)) + Nat.max 10 (String.length (str b))
       + Nat.max 10 (String.length (str c)) + Nat.max 50 (String.length (str d)))%nat.
Proof.
  unfold format_row. rewrite !length_append, !length_ljust. simpl. lia.
Qed.

Lemma for_each_print_row {D S} (files : list CloudFile) (w : World D S) :
  for_each files (λ f,
    Data._print_row (PStr (name f)) (PStr (service f)) (PInt (size f))
      (PStr (url f))) w =
    (Returns tt,
     {| db := db w; store := store w; stdout := stdout w ++ map row files;
        calls := calls w |}).
Proof.
  revert w. induction files as [|f files IH]; intros w; simpl.
  - rewrite app_nil_r. by destruct w.
  - erewrite bind_returns; [|reflexivity]. rewrite IH. simpl.
    by rewrite <- app_assoc.
Qed.

(** ** The operations, one collaborator call after the other *)

Section Runs.
Context {D S : Type}.
Implicit Types (self : Data.t D S) (w : World D S).
Implicit Types (p : DBProvider.t D) (sp : StorageProvider.t S).

Lemma ls_with_store self p w :
  Data._db self = Some p →
  Data.ls self w =
    (Returns (DBProvider.list_files p (db w)),
     {| db := db w; store := store w;
        stdout := stdout w ++ header :: map row (DBProvider.list_files p (db w));
        calls := calls w ++ [DbListFiles] |}).
Proof.
  intros Hdb. unfold Data.ls.
  erewrite bind_returns; [|unfold Data.db_attr; by rewrite Hdb].
  do 3 (erewrite bind_returns; [|reflexivity]).
  erewrite bind_returns; [|apply for_each_print_row].
  unfold ret. simpl. by rewrite <- app_assoc.
Qed.

Lemma ls_without_store self w :
  Data._db self = None →
  Data.ls self w = (Raises (AttributeError "list_files"), w).
Proof.
  intros Hdb. unfold Data.ls.
  erewrite bind_raises; [done|]. unfold Data.db_attr. by rewrite Hdb.
Qed.

Lemma add_unresolved self provider file_path w :
  Data._providers self !! or_else provider "default" = None →
  Data.add self provider file_path w =
    (Raises (KeyError (VStr (or_else provider "default"))), w).
Proof. intros Hsp. run. by rewrite Hsp. Qed.

Lemma add_resolved self sp provider file_path w :
  Data._providers self !! or_else provider "default" = Some sp →
  let key := or_else provider "default" in
  let world d s cs :=
    {| db := d; store := s; stdout := stdout w; calls := calls w ++ cs |} in
  Data.add self provider file_path w =
    match StorageProvider.add sp file_path (store w) with
    | (Raises e, s') => (Raises e, world (db w) s' [StorageAdd key file_path])
    | (Returns f, s') =>
        match Data._db self with
        | None =>
            (Raises (AttributeError "add"),
             world (db w) s' [StorageAdd key file_path])
        | Some p =>
            let '(r, d') := DBProvider.add p f (db w) in
            (match r with Returns _ => Returns f | Raises e => Raises e end,
             world d' s' [StorageAdd key file_path; DbAdd f])
        end
    end.
Proof.
  intros Hsp. run. rewrite Hsp. simpl.
  destruct (StorageProvider.add sp file_path (store w)) as [[f|e] s'];
    simpl; [|done].
  destruct (Data._db self) as [p|]; simpl; [|done].
  destruct (DBProvider.add p f (db w)) as [[[]|e] d']; simpl;
    by rewrite <- !app_assoc.
Qed.

End Runs.

(** ** The operations on tracked files *)

Section Operations.
Context {D S : Type}.
Implicit Types (self : Data.t D S) (w : World D S).
Implicit Types (p : DBProvider.t D) (sp : StorageProvider.t S).
Implicit Types (f : CloudFile) (file_name file_path : string).

(** C1. [delete] of a tracked name first calls the owning service's remove
    and only then removes the metadata entry: the calls made are the
    lookup, the remove and last the store's delete.  When the remove
    raises, [delete] raises the same exception, the store's delete is not
    called and the metadata store is unchanged, so that [get] still finds
    the record and [list_files] lists what it listed before. *)
Theorem delete_remove_before_index self p sp file_name f w :
  Data._db self = Some p →
  DBProvider.get p file_name (db w) = Some f →
  Data._providers self !! service f = Some sp →
  let '(r, w') := Data.delete self file_name w in
  match StorageProvider.delete sp f (store w) with
  | (Raises e, s') =>
      r = Raises e ∧ store w' = s' ∧ db w' = db w ∧
      DBProvider.get p file_name (db w') = Some f ∧
      DBProvider.list_files p (db w') = DBProvider.list_files p (db w) ∧
      calls w' = calls w ++ [DbGet file_name; StorageDelete (service f) f]
  | (Returns _, s') =>
      store w' = s' ∧ (r, db w') = DBProvider.delete p f (db w) ∧
      calls w' =
        calls w ++ [DbGet file_name; StorageDelete (service f) f; DbDelete f]
  end.
Proof.
  intros Hdb Hget Hsp. run. rewrite Hdb; simpl. rewrite Hget; simpl.
  rewrite Hsp; simpl.
  destruct (StorageProvider.delete sp f (store w)) as [[[]|e] s']; simpl.
  - destruct (DBProvider.delete p f (db w)) as [r d'].
    by rewrite <- !app_assoc.
  - by rewrite <- !app_assoc.
Qed.

(** C2. For a name the metadata store does not hold, [get] prints the
    not-found message and raises [SystemExit], and [delete] raises an
    [Exception] naming the file; in both the only collaborator call is the
    lookup in the metadata store: no call to a storage service is made and
    the storage world is untouched. *)
Theorem missing_name_not_found self p file_name dest_folder w :
  Data._db self = Some p →
  DBProvider.get p file_name (db w) = None →
  let got := Data.get self file_name dest_folder w in
  let deleted := Data.delete self file_name w in
  got =
    (Raises SystemExit,
     {| db := db w; store := store w;
        stdout := stdout w ++
          ["Requested file not found. Use `ls` to see a list of file names."];
        calls := calls w ++ [DbGet file_name] |})
  ∧ deleted =
    (Raises (Exception (file_name ++ " not found in the database.")%string),
     {| db := db w; store := store w; stdout := stdout w;
        calls := calls w ++ [DbGet file_name] |})
  ∧ ∀ w', w' = got.2 ∨ w' = deleted.2 →
      store w' = store w ∧
      ∃ cs, calls w' = calls w ++ cs ∧ Forall (λ c, is_storage_call c = false) cs.
Proof.
  intros Hdb Hget got deleted.
  assert (Hgot : got = (Raises SystemExit,
     {| db := db w; store := store w;
        stdout := stdout w ++
          ["Requested file not found. Use `ls` to see a list of file names."];
        calls := calls w ++ [DbGet file_name] |})).
  { subst got. run. rewrite Hdb; simpl. by rewrite Hget. }
  assert (Hdel : deleted =
    (Raises (Exception (file_name ++ " not found in the database.")%string),
     {| db := db w; store := store w; stdout := stdout w;
        calls := calls w ++ [DbGet file_name] |})).
  { subst deleted. run. rewrite Hdb; simpl. by rewrite Hget. }
  split; [done|]. split; [done|].
  intros w' [->| ->]; rewrite ?Hgot, ?Hdel; simpl;
    (split; [done|]); exists [DbGet file_name]; split; try done;
    by repeat constructor.
Qed.

(** C3. Whatever backend is chosen, [add] calls its upload before it
    touches the metadata store.  When the upload raises, [add] raises the
    same exception, the only call made is the upload and the metadata store
    is unchanged.  When the upload returns a record, the store's [add] is
    what is called next, with that record.  (A choice that is no key of the
    registry ends [add] before any call.) *)
Theorem add_upload_before_index self provider file_path w :
  let key := or_else provider "default" in
  let '(r, w') := Data.add self provider file_path w in
  match Data._providers self !! key with
  | None => r = Raises (KeyError (VStr key)) ∧ w' = w
  | Some sp =>
      match StorageProvider.add sp file_path (store w) with
      | (Raises e, s') =>
          r = Raises e ∧ store w' = s' ∧ db w' = db w ∧
          calls w' = calls w ++ [StorageAdd key file_path]
      | (Returns f, s') =>
          store w' = s' ∧
          match Data._db self with
          | Some p =>
              db w' = (DBProvider.add p f (db w)).2 ∧
              calls w' = calls w ++ [StorageAdd key file_path; DbAdd f]
          | None =>
              r = Raises (AttributeError "add") ∧ db w' = db w ∧
              calls w' = calls w ++ [StorageAdd key file_path]
          end
      end
  end.
Proof.
  intros key. destruct (Data._providers self !! key) as [sp|] eqn:Hsp.
  - rewrite (add_resolved _ sp) by done.
    destruct (StorageProvider.add sp file_path (store w)) as [[f|e] s']; [|done].
    destruct (Data._db self) as [p|]; [|done].
    by destruct (DBProvider.add p f (db w)) as [r d'].
  - by rewrite add_unresolved.
Qed.

(** C6. When the service named by a tracked record is not a key of the
    registry, [get] and [delete] of its name raise the [KeyError] of the
    registry lookup; nothing is called after the lookup in the metadata
    store, and the metadata store, entry included, stays as it was. *)
Theorem unresolved_backend_fails self p file_name dest_folder f w :
  Data._db self = Some p →
  DBProvider.get p file_name (db w) = Some f →
  Data._providers self !! service f = None →
  let w' := {| db := db w; store := store w; stdout := stdout w;
               calls := calls w ++ [DbGet file_name] |} in
  Data.get self file_name dest_folder w = (Raises (KeyError (VStr (service f))), w')
  ∧ Data.delete self file_name w = (Raises (KeyError (VStr (service f))), w')
  ∧ DBProvider.get p file_name (db w') = Some f.
Proof.
  intros Hdb Hget Hsp. run. rewrite Hdb; simpl. rewrite Hget; simpl.
  by rewrite Hsp.
Qed.

(** C8. Two calls of [ls] in a row give the same result, and the metadata
    store is the same after as before; with a metadata store configured,
    each call returns exactly what the store's [list_files] yields. *)
Theorem ls_twice_same self w :
  let '(r1, w1) := Data.ls self w in
  let '(r2, w2) := Data.ls self w1 in
  r1 = r2 ∧ db w1 = db w ∧ db w2 = db w ∧
  ∀ p, Data._db self = Some p →
       r1 = Returns (DBProvider.list_files p (db w)) ∧
       r2 = Returns (DBProvider.list_files p (db w1)).
Proof.
  destruct (Data._db self) as [p|] eqn:Hdb.
  - rewrite (ls_with_store _ p) by done. rewrite (ls_with_store _ p) by done.
    simpl. split_and!; [done..|]. by intros ? [= <-].
  - rewrite !ls_without_store by done. simpl. split_and!; [done..|].
    by intros ? [=].
Qed.

(** C9, as the code has it.  With a metadata store configured, [ls]
    prints the header line [FILE SERVICE SIZE URL] first and then one line
    per record, in the order of the store's [list_files]; header and record
    lines come from the same format, whose columns are at least 35, 10, 10
    and 50 characters wide.  A record line has the width of the header
    exactly when each field of the record fits its column: a longer field
    is printed in full and makes its line longer. *)
Theorem ls_prints_table self p w :
  Data._db self = Some p →
  let files := DBProvider.list_files p (db w) in
  stdout (Data.ls self w).2 = stdout w ++ header :: map row files
  ∧ header = format_row (PStr "FILE") (PStr "SERVICE") (PStr "SIZE") (PStr "URL")
  ∧ ∀ f, f ∈ files →
      (String.length header ≤ String.length (row f))%nat
      ∧ (String.length (row f) = String.length header ↔ fits f).
Proof.
  intros Hdb files. split; [|split].
  - by rewrite (ls_with_store _ p).
  - reflexivity.
  - intros f _. unfold row, fits.
    rewrite length_format_row. simpl str.
    change (String.length header) with 109%nat. lia.
Qed.

End Operations.

Lemma delete_remove_before_index_witness :
  let out := Data.delete Ref.self_local "notes.txt" Ref.w2 in
  Data._db Ref.self_local = Some Ref.db_provider
  ∧ DBProvider.get Ref.db_provider "notes.txt" (db Ref.w2) = Some Ref.notes
  ∧ Data._providers Ref.self_local !! service Ref.notes = Some (Ref.storage "local")
  ∧ (out.1 = Raises (OSError "No such object")
     ∧ store out.2 = store Ref.w2 ∧ db out.2 = db Ref.w2
     ∧ DBProvider.get Ref.db_provider "notes.txt" (db out.2) = Some Ref.notes
     ∧ DBProvider.list_files Ref.db_provider (db out.2) = [Ref.notes]
     ∧ calls out.2 = [DbGet "notes.txt"; StorageDelete "local" Ref.notes]).
Proof.
  do 3 (split; [reflexivity|]).
  exact (delete_remove_before_index Ref.self_local Ref.db_provider
           (Ref.storage "local") "notes.txt" Ref.notes Ref.w2
           eq_refl eq_refl eq_refl).
Defined.

Lemma missing_name_not_found_witness :
  Data._db Ref.self_local = Some Ref.db_provider
  ∧ DBProvider.get Ref.db_provider "ghost.txt" (db Ref.w1) = None
  ∧ (Data.get Ref.self_local "ghost.txt" None Ref.w1).1 = Raises SystemExit
  ∧ (Data.delete Ref.self_local "ghost.txt" Ref.w1).1 =
      Raises (Exception "ghost.txt not found in the database.")
  ∧ calls (Data.get Ref.self_local "ghost.txt" None Ref.w1).2 = [DbGet "ghost.txt"]
  ∧ calls (Data.delete Ref.self_local "ghost.txt" Ref.w1).2 = [DbGet "ghost.txt"].
Proof.
  pose proof (missing_name_not_found Ref.self_local Ref.db_provider "ghost.txt"
                None Ref.w1 eq_refl eq_refl) as (Hget & Hdel & _).
  cbv zeta in Hget, Hdel.
  split_and!; [reflexivity..| | | |].
  - by rewrite Hget.
  - by rewrite Hdel.
  - by rewrite Hget.
  - by rewrite Hdel.
Defined.

(** An upload that fails: the file is not on the disk. *)
Example add_failed_upload :
  let out := Data.add Ref.self_local None "ghost.txt" Ref.w1 in
  out.1 = Raises (OSError "No such file")
  ∧ db out.2 = db Ref.w1
  ∧ calls out.2 = [StorageAdd "default" "ghost.txt"].
Proof. split_and!; reflexivity. Qed.

(** An upload that returns: the record is added to the store next. *)
Example add_then_index :
  let out := Data.add Ref.self_local None "notes.txt" Ref.w0 in
  out.1 = Returns Ref.notes
  ∧ DBProvider.list_files Ref.db_provider (db out.2) = [Ref.notes]
  ∧ calls out.2 = [StorageAdd "default" "notes.txt"; DbAdd Ref.notes].
Proof. split_and!; reflexivity. Qed.

Lemma unresolved_backend_fails_witness :
  Data._db Ref.self_local = Some Ref.db_provider
  ∧ DBProvider.get Ref.db_provider "old.bin" (db Ref.w3) = Some Ref.stray
  ∧ Data._providers Ref.self_local !! service Ref.stray = None
  ∧ (Data.get Ref.self_local "old.bin" None Ref.w3).1 = Raises (KeyError (VStr "s3"))
  ∧ (Data.delete Ref.self_local "old.bin" Ref.w3).1 = Raises (KeyError (VStr "s3"))
  ∧ DBProvider.get Ref.db_provider "old.bin"
      (db (Data.delete Ref.self_local "old.bin" Ref.w3).2) = Some Ref.stray.
Proof.
  pose proof (unresolved_backend_fails Ref.self_local Ref.db_provider "old.bin"
                None Ref.stray Ref.w3 eq_refl eq_refl eq_refl) as (Hget & Hdel & Hdb).
  split_and!; [reflexivity..| | |].
  - by rewrite Hget.
  - by rewrite Hdel.
  - by rewrite Hdel.
Defined.

Lemma ls_prints_table_witness :
  Data._db Ref.self_local = Some Ref.db_provider
  ∧ stdout (Data.ls Ref.self_local Ref.w1).2 =
      [" FILE                                SERVICE    SIZE       URL                                               ";
       " notes.txt                           local      42         local://notes.txt                                 "].
Proof.
  split; [reflexivity|].
  rewrite (proj1 (ls_prints_table Ref.self_local Ref.db_provider Ref.w1 eq_refl)).
  reflexivity.
Defined.

(** C9 as stated fails: the line [ls] prints for a record with a URL of 55
    characters is 114 characters long, five more than the header, so the
    lines of the table do not all have the same width. *)
Lemma ls_row_wider_than_header :
  stdout (Data.ls Ref.self_local Ref.w4).2 = [header; row Ref.report]
  ∧ String.length header = 109%nat
  ∧ String.length (row Ref.report) = 114%nat
  ∧ ¬ (∀ (D S : Type) (self : Data.t D S) (p : DBProvider.t D) (w : World D S),
         Data._db self = Some p →
         ∀ f, f ∈ DBProvider.list_files p (db w) →
              String.length (row f) = String.length header).
Proof.
  split; [reflexivity|]. split; [reflexivity|]. split; [reflexivity|].
  intros Hclaim.
  assert (Hin : Ref.report ∈ DBProvider.list_files Ref.db_provider (db Ref.w4)).
  { replace (DBProvider.list_files Ref.db_provider (db Ref.w4)) with [Ref.report]
      by reflexivity.
    apply list_elem_of_here. }
  specialize (Hclaim Ref.D Ref.S Ref.self_local Ref.db_provider Ref.w4 eq_refl
                Ref.report Hin).
  vm_compute in Hclaim. discriminate Hclaim.
Qed.

(** ** Configuration *)

Lemma lookup_path_None (path : list string) : lookup_path path VNone = VNone.
Proof. by destruct path. Qed.

Lemma lookup_path_app (p1 p2 : list string) (v : value) :
  lookup_path (p1 ++ p2) v = lookup_path p2 (lookup_path p1 v).
Proof.
  revert v. induction p1 as [|k p1 IH]; intros v; simpl; [done|].
  destruct v; try by rewrite lookup_path_None.
  destruct (_ !! k); [apply IH | by rewrite lookup_path_None].
Qed.

Lemma lookup_path_falsy (k : string) (path : list string) (v : value) :
  truthy v = false → lookup_path (k :: path) v = VNone.
Proof.
  destruct v as [| | | | |m]; simpl; try done.
  intros Hm. apply negb_false_iff, bool_decide_eq_true_1, dom_empty_inv_L in Hm.
  subst m. by rewrite lookup_empty.
Qed.

Lemma getitem_Returns {A} (d : gmap string A) (key : value) (a : A) :
  getitem d key = Returns a → ∃ k, key = VStr k ∧ d !! k = Some a.
Proof.
  destruct key as [| | |k| |]; simpl; try done.
  destruct (d !! k) as [a'|] eqn:E; [|done]. intros [= <-]. eauto.
Qed.

Lemma getitem_missing {A} (d : gmap string A) (k : string) :
  d !! k = None → getitem d (VStr k) = Raises (KeyError (VStr k)).
Proof. intros E. simpl. by rewrite E. Qed.

(** Evaluate the dotted keys that occur in the goal and the hypotheses. *)
Ltac eval_paths :=
  repeat match goal with
         | |- context [split_dots ?s] =>
             let l := eval vm_compute in (split_dots s) in
             replace (split_dots s) with l by (vm_compute; reflexivity)
         | H : context [split_dots ?s] |- _ =>
             let l := eval vm_compute in (split_dots s) in
             replace (split_dots s) with l in H by (vm_compute; reflexivity)
         end.

(** One step of [config] in [H : Data.config _ _ = _]: a statement without
    a test returns or raises, a test is decided, a value whose [get] is
    called is a mapping or not. *)
Ltac config_step H :=
  first
    [ erewrite bind_returns in H by reflexivity
    | erewrite bind_raises in H by reflexivity
    | rewrite bind_assoc in H
    | match type of H with
      | context [when ?b _] =>
          let E := fresh "Htest" in destruct b eqn:E; unfold when at 1 in H
      | context [conf_get _ ?c] =>
          lazymatch c with
          | lookup_path _ _ => idtac
          | Config _ => idtac
          end;
          let E := fresh "Hget" in destruct c eqn:E
      | context [getitem ?d ?k] =>
          let E := fresh "Hitem" in destruct (getitem d k) eqn:E
      end ].

Ltac config_run H :=
  unfold Data.config in H; repeat config_step H;
  try unfold Data.set_provider, modify in H;
  cbn [Data._db Data._conf Data._providers Data.__init__] in *; eval_paths.

Section Configuration.
Context {D S : Type} {C : Collaborators D S}.
Implicit Types (self : Data.t D S) (w : World D S).

(** What [config] leaves behind, whatever its outcome.  [P] is the
    registry as it is before the default is set. *)
Lemma config_inv (config_path : string) self0 r self :
  Data.config config_path self0 = (r, self) →
  let doc := Config config_path in
  let conf := lookup_path ["data"] doc in
  let az_conf := lookup_path ["service"; "azure"] conf in
  let storage_path := lookup_path ["service"; "local"; "CMDATA_STORAGE_FOLDER"] conf in
  let az_act := lookup_path ["credentials"; "AZURE_STORAGE_ACCOUNT"] az_conf in
  let az_key := lookup_path ["credentials"; "AZURE_STORAGE_KEY"] az_conf in
  let az_container := lookup_path ["container"] az_conf in
  ∃ P : gmap string (StorageProvider.t S),
    P !! "local" =
      (if truthy storage_path then Some (LocalStorageProvider storage_path)
       else Data._providers self0 !! "local")
    ∧ P !! "azure" =
      (if truthy az_act && truthy az_key
       then Some (AzureStorageProvider az_act az_key az_container)
       else Data._providers self0 !! "azure")
    ∧ (∀ k, k ≠ "local" → k ≠ "azure" → P !! k = Data._providers self0 !! k)
    ∧ Data._db self =
      (if eq_str (lookup_path ["default"; "db"] conf) "local"
       then Some (LocalDBProvider (lookup_path ["db"; "local"; "CMDATA_DB_FOLDER"] conf))
       else Data._db self0)
    ∧ ((malformed doc ∧ r = Raises (AttributeError "get") ∧ Data._providers self = P)
       ∨ (wellformed doc ∧ Data._conf self = conf ∧
          match getitem P (lookup_path ["default"; "service"] conf) with
          | Returns p => r = Returns tt ∧ Data._providers self = <["default" := p]> P
          | Raises e => r = Raises e ∧ Data._providers self = P
          end)).
Proof.
  intros H doc conf az_conf storage_path az_act az_key az_container.
  subst doc conf az_conf storage_path az_act az_key az_container.
  unfold malformed, wellformed.
  config_run H.
  all: lazymatch type of H with
       | (Returns _, {| Data._providers := <["default" := _]> ?P |}) = _ => exists P
       | (_, ?s) = _ => exists (Data._providers s)
       end.
  all: injection H as Hr Hs; subst r self; cbn [Data._db Data._conf Data._providers].
  all: repeat match goal with
              | E : lookup_path _ _ = _ |- _ => rewrite E
              | E : Config _ = _ |- _ => rewrite E
              | E : truthy ?v = false |- context [lookup_path (?k :: ?p) ?v] =>
                  rewrite !(lookup_path_falsy _ _ v E)
              | E : truthy _ = _ |- _ => rewrite E
              | E : eq_str _ _ = _ |- _ => rewrite E
              | E : getitem _ _ = _ |- _ => rewrite E
              | E : _ && _ = _ |- _ => rewrite E
              end.
  all: cbn [lookup_path is_dict truthy eq_str andb].
  all: split_and!;
    [ rewrite ?lookup_insert; repeat case_decide; done
    | rewrite ?lookup_insert; repeat case_decide; done
    | by intros k ? ?; rewrite ?lookup_insert_ne by done
    | done
    | first [ left; split_and!; [|done..]; by eauto
            | right; split_and!; by eauto ] ].
Qed.

Lemma malformed_not_wellformed (doc : value) : malformed doc → wellformed doc → False.
Proof.
  unfold malformed, wellformed. intros [Hd|[Hc|[Ht Ha]]] (Hd' & Hc' & Ha').
  - congruence.
  - congruence.
  - specialize (Ha' Ht). congruence.
Qed.

(** Setting the default does not touch the entries of the services. *)
Lemma config_lookup_service (config_path : string) self0 r self k :
  Data.config config_path self0 = (r, self) → k ≠ "default" →
  ∃ P : gmap string (StorageProvider.t S),
       Data._providers self !! k = P !! k ∧
       (k ≠ "local" → k ≠ "azure" → P !! k = Data._providers self0 !! k) ∧
       P !! "local" =
         (if option_set "data.service.local.CMDATA_STORAGE_FOLDER" (Config config_path)
          then Some (LocalStorageProvider
                 (option_value "data.service.local.CMDATA_STORAGE_FOLDER" (Config config_path)))
          else Data._providers self0 !! "local") ∧
       P !! "azure" =
         (if option_set "data.service.azure.credentials.AZURE_STORAGE_ACCOUNT" (Config config_path)
             && option_set "data.service.azure.credentials.AZURE_STORAGE_KEY" (Config config_path)
          then Some (AzureStorageProvider
                 (option_value "data.service.azure.credentials.AZURE_STORAGE_ACCOUNT" (Config config_path))
                 (option_value "data.service.azure.credentials.AZURE_STORAGE_KEY" (Config config_path))
                 (option_value "data.service.azure.container" (Config config_path)))
          else Data._providers self0 !! "azure").
Proof.
  intros H Hk. apply config_inv in H as (P & Hl & Ha & Ho & _ & Hout).
  exists P. unfold option_set, option_value. eval_paths.
  rewrite (lookup_path_app ["data"] ["service"; "local"; "CMDATA_STORAGE_FOLDER"]).
  rewrite (lookup_path_app ["data"]
             (["service"; "azure"] ++ ["credentials"; "AZURE_STORAGE_ACCOUNT"])).
  rewrite (lookup_path_app ["data"]
             (["service"; "azure"] ++ ["credentials"; "AZURE_STORAGE_KEY"])).
  rewrite (lookup_path_app ["data"] (["service"; "azure"] ++ ["container"])).
  rewrite 3!(lookup_path_app ["service"; "azure"]).
  split_and!; [|by auto|done|done].
  destruct Hout as [(_ & _ & ->)|(_ & _ & Hout)]; [done|].
  destruct (getitem P _); destruct Hout as [_ ->]; [|done].
  by rewrite lookup_insert_ne.
Qed.

(** C7. After [config] on a fresh object, whatever its outcome, [local]
    is a key of the registry exactly when the local storage folder option
    is set, and [azure] exactly when the storage account and the storage
    key options are both set; the container option plays no part.  The
    only other key the registry can hold is the alias [default]. *)
Theorem registered_iff_options_set (config_path : string) :
  let doc := Config config_path in
  let self := (Data.config config_path Data.__init__).2 in
  (is_Some (Data._providers self !! "local") ↔
     option_set "data.service.local.CMDATA_STORAGE_FOLDER" doc = true)
  ∧ (is_Some (Data._providers self !! "azure") ↔
     option_set "data.service.azure.credentials.AZURE_STORAGE_ACCOUNT" doc = true
     ∧ option_set "data.service.azure.credentials.AZURE_STORAGE_KEY" doc = true)
  ∧ (∀ k, is_Some (Data._providers self !! k) →
          k = "local" ∨ k = "azure" ∨ k = "default").
Proof.
  intros doc self. subst doc self.
  destruct (Data.config config_path Data.__init__) as [r self] eqn:H.
  cbn [snd]. split; [|split].
  - destruct (config_lookup_service _ _ _ _ "local" H) as (P & -> & _ & -> & _);
      [done|].
    destruct (option_set _ _); cbn [Data.__init__ Data._providers].
    + split; eauto.
    + rewrite lookup_empty. split; [by intros [? [=]] | done].
  - destruct (config_lookup_service _ _ _ _ "azure" H) as (P & -> & _ & _ & ->);
      [done|].
    destruct (option_set _ _), (option_set _ _);
      cbn [andb Data.__init__ Data._providers]; rewrite ?lookup_empty.
    + split; eauto.
    + split; [by intros [? [=]] | by intros [_ [=]]].
    + split; [by intros [? [=]] | by intros [[=] _]].
    + split; [by intros [? [=]] | by intros [[=] _]].
  - intros k [sp Hk].
    destruct (decide (k = "default")) as [|Hnd]; [by auto|].
    destruct (decide (k = "local")) as [|Hnl]; [by auto|].
    destruct (decide (k = "azure")) as [|Hna]; [by auto|].
    destruct (config_lookup_service _ _ _ _ k H) as (P & HP & Ho & _); [done|].
    rewrite HP, Ho in Hk by done. cbn [Data.__init__ Data._providers] in Hk.
    by rewrite lookup_empty in Hk.
Qed.

(** C5. A backend name that is no key of the registry makes [add] raise
    the [KeyError] of the registry lookup and leave the whole world,
    metadata store included, as it was.  And when the name configured as
    [default.service] is no key of the registry [config] leaves behind,
    [config] has raised: the [KeyError] of that name, on every document
    whose sections are mappings. *)
Theorem unconfigured_backend_fails :
  (∀ self provider file_path w,
     Data._providers self !! or_else provider "default" = None →
     Data.add self provider file_path w =
       (Raises (KeyError (VStr (or_else provider "default"))), w))
  ∧ (∀ config_path self0 name,
       option_value "data.default.service" (Config config_path) = VStr name →
       let '(r, self) := Data.config config_path self0 in
       Data._providers self !! name = None →
       ∃ e, r = Raises e ∧
            (wellformed (Config config_path) → e = KeyError (VStr name))).
Proof.
  split; [intros; by apply add_unresolved|].
  intros config_path self0 name Hname.
  destruct (Data.config config_path self0) as [r self] eqn:H. intros Hnone.
  unfold option_value in Hname. eval_paths.
  rewrite (lookup_path_app ["data"] ["default"; "service"]) in Hname.
  apply config_inv in H as (P & _ & _ & _ & _ & Hout).
  destruct Hout as [(Hmal & -> & _)|(Hwf & _ & Hout)].
  - eexists. split; [done|]. intros Hwf.
    destruct (malformed_not_wellformed _ Hmal Hwf).
  - rewrite Hname in Hout. destruct (P !! name) as [p|] eqn:HP.
    + exfalso. simpl in Hout. rewrite HP in Hout. destruct Hout as [_ Hprov].
      rewrite Hprov, lookup_insert in Hnone. case_decide; congruence.
    + rewrite (getitem_missing _ _ HP) in Hout. destruct Hout as [-> _]. eauto.
Qed.

(** C10, as the code has it.  When [default.db] is not the string [local]
    (or is missing), [config] on a fresh object leaves [_db] unset.  Then
    [ls], [get] and [delete] raise the attribute error of the missing
    store at once, with no collaborator call.  [add] first resolves its
    backend and uploads: it raises the [KeyError] of the registry when the
    name is no key of it, the exception of the upload when that raises,
    and the attribute error only after an upload that returned. *)
Theorem no_store_operations (config_path : string) :
  eq_str (option_value "data.default.db" (Config config_path)) "local" = false →
  let self := (Data.config config_path Data.__init__).2 in
  Data._db self = None
  ∧ ∀ w file_name dest_folder provider file_path,
      Data.ls self w = (Raises (AttributeError "list_files"), w)
      ∧ Data.get self file_name dest_folder w = (Raises (AttributeError "get"), w)
      ∧ Data.delete self file_name w = (Raises (AttributeError "get"), w)
      ∧ let key := or_else provider "default" in
        let uploaded s' :=
          {| db := db w; store := s'; stdout := stdout w;
             calls := calls w ++ [StorageAdd key file_path] |} in
        match Data._providers self !! key with
        | None =>
            Data.add self provider file_path w = (Raises (KeyError (VStr key)), w)
        | Some sp =>
            match StorageProvider.add sp file_path (store w) with
            | (Raises e, s') =>
                Data.add self provider file_path w = (Raises e, uploaded s')
            | (Returns _, s') =>
                Data.add self provider file_path w =
                  (Raises (AttributeError "add"), uploaded s')
            end
        end.
Proof.
  intros Hdb self. subst self.
  destruct (Data.config config_path Data.__init__) as [r self] eqn:H.
  cbn [snd]. unfold option_value in Hdb. eval_paths.
  rewrite (lookup_path_app ["data"] ["default"; "db"]) in Hdb.
  apply config_inv in H as (_ & _ & _ & _ & Hnone & _).
  rewrite Hdb in Hnone. cbn [Data.__init__ Data._db] in Hnone.
  split; [done|]. intros w file_name dest_folder provider file_path.
  split; [|split; [|split]].
  - by apply ls_without_store.
  - run. by rewrite Hnone.
  - run. by rewrite Hnone.
  - destruct (Data._providers self !! _) as [sp|] eqn:Hsp.
    + rewrite (add_resolved _ sp) by done. rewrite Hnone.
      by destruct (StorageProvider.add sp file_path (store w)) as [[f|e] s'].
    + by apply add_unresolved.
Qed.

End Configuration.

(** The default backend *)

Section DefaultBackend.
Context {D S : Type} {C : Collaborators D S}.
Implicit Types (self : Data.t D S) (w : World D S).

(** Modelled from the spec: what the upload of the two storage services
    returns (their classes are absent from the sources).  Upload "returns a
    fully populated record with backend set to this variant's identifier". *)
Hypothesis local_upload : ∀ root file_path s f s',
  StorageProvider.add (LocalStorageProvider root) file_path s = (Returns f, s') →
  service f = "local".
Hypothesis azure_upload : ∀ act key container file_path s f s',
  StorageProvider.add (AzureStorageProvider act key container) file_path s
    = (Returns f, s') →
  service f = "azure".

(** C4. After a [config] that returned, an [add] that names no backend
    uploads with the service registered under [default], which is the one
    registered under the configured [default.service] name, and the
    record it returns carries that name in its [service] field. *)
Theorem add_default_backend config_path self provider file_path w f w' :
  Data.config config_path Data.__init__ = (Returns tt, self) →
  or_else provider "default" = "default" →
  Data.add self provider file_path w = (Returns f, w') →
  option_value "data.default.service" (Config config_path) = VStr (service f)
  ∧ ∃ sp, Data._providers self !! "default" = Some sp
        ∧ Data._providers self !! service f = Some sp
        ∧ StorageProvider.add sp file_path (store w) = (Returns f, store w').
Proof.
  intros H Hkey Hadd. unfold option_value. eval_paths.
  rewrite (lookup_path_app ["data"] ["default"; "service"]).
  apply config_inv in H as (P & Hl & Ha & Ho & _ & Hout).
  destruct Hout as [(_ & [=] & _)|(_ & _ & Hout)].
  destruct (getitem P _) as [p|e] eqn:Hitem; destruct Hout as [[=] Hprov].
  apply getitem_Returns in Hitem as (svc & Hsvc & HP).
  assert (Hdef : Data._providers self !! or_else provider "default" = Some p)
    by (by rewrite Hkey, Hprov, lookup_insert_eq).
  rewrite (add_resolved _ p) in Hadd by done.
  destruct (StorageProvider.add p file_path (store w)) as [[f'|e] s'] eqn:Hup;
    [|done].
  assert (f' = f ∧ s' = store w') as [-> ->].
  { destruct (Data._db self) as [q|]; [|done].
    destruct (DBProvider.add q f' (db w)) as [[[]|e] d']; [|done].
    by injection Hadd as <- <-. }
  assert (service f = svc) as ->.
  { destruct (decide (svc = "local")) as [->|Hnl].
    - rewrite Hl in HP. destruct (truthy _); [|done].
      injection HP as <-. eauto.
    - destruct (decide (svc = "azure")) as [->|Hna].
      + rewrite Ha in HP. destruct (_ && _); [|done].
        injection HP as <-. eauto.
      + by rewrite Ho in HP. }
  split; [done|]. exists p. rewrite Hkey in Hdef. split_and!; [done| |done].
  rewrite Hprov, lookup_insert. by case_decide.
Qed.

End DefaultBackend.

(** ** The operations on concrete configurations *)

Lemma storage_upload_service (ident file_path : string) (s : Ref.S) (f : CloudFile)
    (s' : Ref.S) :
  StorageProvider.add (Ref.storage ident) file_path s = (Returns f, s') →
  service f = ident.
Proof.
  simpl. destruct (Ref.disk s !! file_path); [|done]. by intros [= <- _].
Qed.

(** With account and key set and no container option, [azure] is registered
    (and [local], whose folder option is missing, is not). *)
Example azure_without_container :
  let self := (Data.config (C := Ref.collaborators Ref.doc_azure_no_container)
                 "cloudmesh4.yaml" Data.__init__).2 in
  option_set "data.service.azure.container" Ref.doc_azure_no_container = false
  ∧ is_Some (Data._providers self !! "azure")
  ∧ Data._providers self !! "local" = None.
Proof. split_and!; [by vm_compute | by eexists | reflexivity]. Qed.

Lemma add_default_backend_witness :
  let out := Data.add Ref.self_local None "notes.txt" Ref.w0 in
  Data.config (C := Ref.collaborators (Ref.doc_local "local"))
    "cloudmesh4.yaml" Data.__init__ = (Returns tt, Ref.self_local)
  ∧ or_else None "default" = "default"
  ∧ out = (Returns Ref.notes, out.2)
  ∧ option_value "data.default.service" (Ref.doc_local "local") = VStr "local".
Proof.
  do 3 (split; [reflexivity|]).
  exact (proj1 (add_default_backend (C := Ref.collaborators (Ref.doc_local "local"))
           (λ _, storage_upload_service "local")
           (λ _ _ _, storage_upload_service "azure")
           "cloudmesh4.yaml" Ref.self_local None "notes.txt" Ref.w0 Ref.notes
           (Data.add Ref.self_local None "notes.txt" Ref.w0).2
           eq_refl eq_refl eq_refl)).
Defined.

Lemma unconfigured_backend_fails_witness :
  let Cref := Ref.collaborators Ref.doc_azure_default in
  let out := Data.config (C := Cref) "cloudmesh4.yaml" Data.__init__ in
  Data._providers Ref.self_local !! or_else (Some "azure") "default" = None
  ∧ Data.add Ref.self_local (Some "azure") "notes.txt" Ref.w0 =
      (Raises (KeyError (VStr "azure")), Ref.w0)
  ∧ option_value "data.default.service" Ref.doc_azure_default = VStr "azure"
  ∧ Data._providers out.2 !! "azure" = None
  ∧ ∃ e, out.1 = Raises e ∧ (wellformed Ref.doc_azure_default → e = KeyError (VStr "azure")).
Proof.
  split; [reflexivity|]. split.
  { exact (proj1 (unconfigured_backend_fails (C := Ref.collaborators Ref.doc_azure_default))
             Ref.self_local (Some "azure") "notes.txt" Ref.w0 eq_refl). }
  assert (Hname : option_value "data.default.service" Ref.doc_azure_default = VStr "azure")
    by (vm_compute; reflexivity).
  do 2 (split; [reflexivity|]).
  exact (proj2 (unconfigured_backend_fails (C := Ref.collaborators Ref.doc_azure_default))
           "cloudmesh4.yaml" Data.__init__ "azure" Hname eq_refl).
Defined.

(** C10 as stated fails: with [default.db] set to [mongo] and the local
    service as default, [config] returns and leaves [_db] unset, and an
    [add] that names the unregistered [azure] raises the [KeyError] of the
    registry, not an attribute error. *)
Lemma no_store_add_key_error :
  (Data.add (Data.config (C := Ref.collaborators (Ref.doc_local "mongo"))
               "cloudmesh4.yaml" Data.__init__).2
     (Some "azure") "notes.txt" Ref.w0).1 = Raises (KeyError (VStr "azure"))
  ∧ ¬ (∀ (D S : Type) (C : Collaborators D S) (config_path : string),
         eq_str (option_value "data.default.db" (Config config_path)) "local" = false →
         let self := (Data.config config_path Data.__init__).2 in
         Data._db self = None ∧ all_operations_attribute_error self).
Proof.
  split; [reflexivity|]. intros Hclaim.
  assert (Hdb : eq_str (option_value "data.default.db" (Ref.doc_local "mongo")) "local"
                = false) by (vm_compute; reflexivity).
  destruct (Hclaim Ref.D Ref.S (Ref.collaborators (Ref.doc_local "mongo"))
              "cloudmesh4.yaml" Hdb) as [_ Hall].
  destruct (Hall Ref.w0 (Some "azure") "notes.txt" "notes.txt" None)
    as (_ & [attr Hadd] & _).
  discriminate Hadd.
Qed.

Lemma no_store_operations_witness :
  let Cref := Ref.collaborators (Ref.doc_local "mongo") in
  let self := (Data.config (C := Cref) "cloudmesh4.yaml" Data.__init__).2 in
  eq_str (option_value "data.default.db" (Ref.doc_local "mongo")) "local" = false
  ∧ Data._db self = None
  ∧ Data.ls self Ref.w1 = (Raises (AttributeError "list_files"), Ref.w1)
  ∧ Data.get self "notes.txt" None Ref.w1 = (Raises (AttributeError "get"), Ref.w1)
  ∧ Data.delete self "notes.txt" Ref.w1 = (Raises (AttributeError "get"), Ref.w1)
  ∧ (Data.add self None "notes.txt" Ref.w0).1 = Raises (AttributeError "add")
  ∧ calls (Data.add self None "notes.txt" Ref.w0).2 = [StorageAdd "default" "notes.txt"].
Proof.
  intros Cref self.
  assert (Hdb : eq_str (option_value "data.default.db" (Ref.doc_local "mongo")) "local"
                = false) by (vm_compute; reflexivity).
  destruct (no_store_operations (C := Cref) "cloudmesh4.yaml" Hdb)
    as [Hnone Hops].
  destruct (Hops Ref.w1 "notes.txt" None None "notes.txt") as (Hls & Hget & Hdel & _).
  pose proof (Hops Ref.w0 "notes.txt" None None "notes.txt") as (_ & _ & _ & Hadd).
  split; [exact Hdb|]. split; [exact Hnone|]. split; [exact Hls|].
  split; [exact Hget|]. split; [exact Hdel|].
  split; [exact (f_equal fst Hadd) | exact (f_equal (λ o, calls o.2) Hadd)].
Defined.

(** ** Further properties of the operations *)

Section Outcomes.
Context {D S : Type}.
Implicit Types (self : Data.t D S) (w : World D S).
Implicit Types (p : DBProvider.t D) (sp : StorageProvider.t S).
Implicit Types (f : CloudFile) (file_name file_path : string).

(** X1. [get] of a tracked name whose service is registered asks that
    service, the one named by the record and not by the caller, to download
    the record into the destination folder, which is [.] when the caller
    gives none or an empty one.  The outcome is the outcome of the download;
    nothing is printed and the metadata store is only read. *)
Theorem get_downloads_from_owner self p sp file_name dest_folder f w :
  Data._db self = Some p →
  DBProvider.get p file_name (db w) = Some f →
  Data._providers self !! service f = Some sp →
  let dest := or_else dest_folder "." in
  Data.get self file_name dest_folder w =
    (let '(r, s') := StorageProvider.get sp f dest (store w) in
     (r, {| db := db w; store := s'; stdout := stdout w;
            calls := calls w ++ [DbGet file_name; StorageGet (service f) f dest] |}))
  ∧ (dest_folder = None ∨ dest_folder = Some "" → dest = ".").
Proof.
  intros Hdb Hget Hsp dest. split.
  - run. rewrite Hdb; simpl. rewrite Hget; simpl. rewrite Hsp; simpl.
    destruct (StorageProvider.get sp f _ (store w)) as [r s'].
    by rewrite <- !app_assoc.
  - by intros [->| ->].
Qed.

(** X2. [add] returns a record exactly when the chosen backend is
    registered, its upload returned that record, a metadata store is
    configured and the store's [add] of the record returned; the world is
    then the one both calls left, with the two calls logged in that order. *)
Theorem add_returns_iff self provider file_path w f w' :
  let key := or_else provider "default" in
  Data.add self provider file_path w = (Returns f, w') ↔
  ∃ sp p s' d',
    Data._providers self !! key = Some sp
    ∧ StorageProvider.add sp file_path (store w) = (Returns f, s')
    ∧ Data._db self = Some p
    ∧ DBProvider.add p f (db w) = (Returns tt, d')
    ∧ w' = {| db := d'; store := s'; stdout := stdout w;
              calls := calls w ++ [StorageAdd key file_path; DbAdd f] |}.
Proof.
  intros key. split.
  - destruct (Data._providers self !! key) as [sp|] eqn:Hsp;
      [|by rewrite add_unresolved].
    rewrite (add_resolved _ sp) by done.
    destruct (StorageProvider.add sp file_path (store w)) as [[f'|e] s'] eqn:Hup;
      [|done].
    destruct (Data._db self) as [p|] eqn:Hdb; [|done].
    destruct (DBProvider.add p f' (db w)) as [[[]|e] d'] eqn:Hadd; [|done].
    intros [= -> <-]. by exists sp, p, s', d'.
  - intros (sp & p & s' & d' & Hsp & Hup & Hdb & Hadd & ->).
    rewrite (add_resolved _ sp) by done. by rewrite Hup, Hdb, Hadd.
Qed.

(** X3. [delete] returns exactly when the name is tracked, the service of
    its record is registered, the remove at that service returned and the
    store's [delete] of the record returned. *)
Theorem delete_returns_iff self file_name w w' :
  Data.delete self file_name w = (Returns tt, w') ↔
  ∃ p f sp s' d',
    Data._db self = Some p
    ∧ DBProvider.get p file_name (db w) = Some f
    ∧ Data._providers self !! service f = Some sp
    ∧ StorageProvider.delete sp f (store w) = (Returns tt, s')
    ∧ DBProvider.delete p f (db w) = (Returns tt, d')
    ∧ w' = {| db := d'; store := s'; stdout := stdout w;
              calls := calls w ++
                [DbGet file_name; StorageDelete (service f) f; DbDelete f] |}.
Proof.
  split.
  - run. destruct (Data._db self) as [p|] eqn:Hdb; simpl; [|done].
    destruct (DBProvider.get p file_name (db w)) as [f|] eqn:Hget; simpl; [|done].
    destruct (Data._providers self !! service f) as [sp|] eqn:Hsp; simpl; [|done].
    destruct (StorageProvider.delete sp f (store w)) as [[[]|e] s'] eqn:Hrm;
      simpl; [|done].
    destruct (DBProvider.delete p f (db w)) as [[[]|e] d'] eqn:Hdel; [|done].
    intros [= <-]. exists p, f, sp, s', d'. by rewrite <- !app_assoc.
  - intros (p & f & sp & s' & d' & Hdb & Hget & Hsp & Hrm & Hdel & ->).
    run. rewrite Hdb; simpl. rewrite Hget; simpl. rewrite Hsp; simpl.
    rewrite Hrm; simpl. rewrite Hdel. by rewrite <- !app_assoc.
Qed.

(** X4. [get] and [ls] only read the metadata store: whatever the object,
    the arguments and the outcome, the store is afterwards what it was, and
    [ls] leaves the storage world alone as well. *)
Theorem get_ls_read_only self file_name dest_folder w :
  db (Data.get self file_name dest_folder w).2 = db w
  ∧ db (Data.ls self w).2 = db w
  ∧ store (Data.ls self w).2 = store w.
Proof.
  split; [|split].
  - run. destruct (Data._db self) as [p|]; simpl; [|done].
    destruct (DBProvider.get p file_name (db w)) as [f|]; simpl; [|done].
    destruct (Data._providers self !! service f) as [sp|]; simpl; [|done].
    by destruct (StorageProvider.get sp f _ (store w)) as [r s'].
  - destruct (Data._db self) as [p|] eqn:Hdb.
    + by rewrite (ls_with_store _ p).
    + by rewrite ls_without_store.
  - destruct (Data._db self) as [p|] eqn:Hdb.
    + by rewrite (ls_with_store _ p).
    + by rewrite ls_without_store.
Qed.

End Outcomes.

(** X5. The line of a record is never shorter than the header, and it has
    the header's length exactly when each of the four fields fits its
    column: a longer field is printed in full and pushes the columns after
    it to the right. *)
Theorem row_length_iff_fits (f : CloudFile) :
  (String.length header ≤ String.length (row f))%nat
  ∧ (String.length (row f) = String.length header ↔ fits f).
Proof.
  unfold row, fits. rewrite length_format_row. simpl str.
  change (String.length header) with 109%nat. lia.
Qed.

Lemma get_downloads_from_owner_witness :
  Data._db Ref.self_local = Some Ref.db_provider
  ∧ DBProvider.get Ref.db_provider "notes.txt" (db Ref.w1) = Some Ref.notes
  ∧ Data._providers Ref.self_local !! service Ref.notes = Some (Ref.storage "local")
  ∧ (Data.get Ref.self_local "notes.txt" None Ref.w1).1 = Returns tt
  ∧ calls (Data.get Ref.self_local "notes.txt" None Ref.w1).2 =
      [DbGet "notes.txt"; StorageGet "local" Ref.notes "."].
Proof.
  pose proof (proj1 (get_downloads_from_owner Ref.self_local Ref.db_provider
                (Ref.storage "local") "notes.txt" None Ref.notes Ref.w1
                eq_refl eq_refl eq_refl)) as Hget.
  split_and!; [reflexivity..| |]; by rewrite Hget.
Defined.

(** ** Further properties of [config] *)

Section Reconfiguration.
Context {D S : Type} {C : Collaborators D S}.
Implicit Types (self : Data.t D S) (w : World D S).

(** [config_inv] with the options named from the root of the document. *)
Lemma config_inv_doc (config_path : string) self0 r self :
  Data.config config_path self0 = (r, self) →
  let doc := Config config_path in
  ∃ P : gmap string (StorageProvider.t S),
    P !! "local" =
      (if option_set "data.service.local.CMDATA_STORAGE_FOLDER" doc
       then Some (LocalStorageProvider
              (option_value "data.service.local.CMDATA_STORAGE_FOLDER" doc))
       else Data._providers self0 !! "local")
    ∧ P !! "azure" =
      (if option_set "data.service.azure.credentials.AZURE_STORAGE_ACCOUNT" doc
          && option_set "data.service.azure.credentials.AZURE_STORAGE_KEY" doc
       then Some (AzureStorageProvider
              (option_value "data.service.azure.credentials.AZURE_STORAGE_ACCOUNT" doc)
              (option_value "data.service.azure.credentials.AZURE_STORAGE_KEY" doc)
              (option_value "data.service.azure.container" doc))
       else Data._providers self0 !! "azure")
    ∧ (∀ k, k ≠ "local" → k ≠ "azure" → P !! k = Data._providers self0 !! k)
    ∧ Data._db self =
      (if eq_str (option_value "data.default.db" doc) "local"
       then Some (LocalDBProvider (option_value "data.db.local.CMDATA_DB_FOLDER" doc))
       else Data._db self0)
    ∧ ((malformed doc ∧ r = Raises (AttributeError "get") ∧ Data._providers self = P)
       ∨ (wellformed doc ∧ Data._conf self = option_value "data" doc ∧
          match getitem P (option_value "data.default.service" doc) with
          | Returns p => r = Returns tt ∧ Data._providers self = <["default" := p]> P
          | Raises e => r = Raises e ∧ Data._providers self = P
          end)).
Proof.
  intros H doc. subst doc. apply config_inv in H as (P & H).
  exists P. unfold option_set, option_value. eval_paths.
  rewrite (lookup_path_app ["data"] ["service"; "local"; "CMDATA_STORAGE_FOLDER"]).
  rewrite (lookup_path_app ["data"]
             (["service"; "azure"] ++ ["credentials"; "AZURE_STORAGE_ACCOUNT"])).
  rewrite (lookup_path_app ["data"]
             (["service"; "azure"] ++ ["credentials"; "AZURE_STORAGE_KEY"])).
  rewrite (lookup_path_app ["data"] (["service"; "azure"] ++ ["container"])).
  rewrite 3!(lookup_path_app ["service"; "azure"]).
  rewrite (lookup_path_app ["data"] ["default"; "db"]).
  rewrite (lookup_path_app ["data"] ["db"; "local"; "CMDATA_DB_FOLDER"]).
  rewrite (lookup_path_app ["data"] ["default"; "service"]).
  exact H.
Qed.

(** A [config] that returned went through the registry lookup of the
    default. *)
Lemma config_returned (config_path : string) self0 self :
  Data.config config_path self0 = (Returns tt, self) →
  let doc := Config config_path in
  wellformed doc ∧
  ∃ (P : gmap string (StorageProvider.t S)) svc p,
    option_value "data.default.service" doc = VStr svc
    ∧ P !! svc = Some p
    ∧ Data._providers self = <["default" := p]> P
    ∧ Data._conf self = option_value "data" doc
    ∧ P !! "local" =
      (if option_set "data.service.local.CMDATA_STORAGE_FOLDER" doc
       then Some (LocalStorageProvider
              (option_value "data.service.local.CMDATA_STORAGE_FOLDER" doc))
       else Data._providers self0 !! "local")
    ∧ P !! "azure" =
      (if option_set "data.service.azure.credentials.AZURE_STORAGE_ACCOUNT" doc
          && option_set "data.service.azure.credentials.AZURE_STORAGE_KEY" doc
       then Some (AzureStorageProvider
              (option_value "data.service.azure.credentials.AZURE_STORAGE_ACCOUNT" doc)
              (option_value "data.service.azure.credentials.AZURE_STORAGE_KEY" doc)
              (option_value "data.service.azure.container" doc))
       else Data._providers self0 !! "azure")
    ∧ (∀ k, k ≠ "local" → k ≠ "azure" → P !! k = Data._providers self0 !! k).
Proof.
  intros H doc. subst doc.
  apply config_inv_doc in H as (P & Hl & Ha & Ho & _ & Hout).
  destruct Hout as [(_ & [=] & _)|(Hwf & Hconf & Hout)]. split; [done|].
  destruct (getitem P _) as [p|e] eqn:Hitem; destruct Hout as [[=] Hprov].
  apply getitem_Returns in Hitem as (svc & Hsvc & HP).
  by exists P, svc, p.
Qed.

(** X6. On a fresh object [config] sets the metadata store exactly when
    [default.db] is the string [local], and then to the local store built
    from the [db.local] folder option; this holds whatever else the document
    says and whether [config] goes on to return or to raise. *)
Theorem config_db_iff_local (config_path : string) :
  let doc := Config config_path in
  Data._db (Data.config config_path Data.__init__).2 =
    if eq_str (option_value "data.default.db" doc) "local"
    then Some (LocalDBProvider (option_value "data.db.local.CMDATA_DB_FOLDER" doc))
    else None.
Proof.
  intros doc. subst doc.
  destruct (Data.config config_path Data.__init__) as [r self] eqn:H.
  by apply config_inv_doc in H as (P & _ & _ & _ & Hdb & _).
Qed.

(** X7. On a fresh object [config] returns exactly when the document, its
    [data] section and a [service.azure] entry that is set are mappings, and
    [default.service] names [local] or [azure] with the options of that
    service set.  In every other case it raises. *)
Theorem config_returns_iff (config_path : string) :
  let doc := Config config_path in
  (Data.config config_path Data.__init__).1 = Returns tt ↔
  wellformed doc ∧ default_service_configured doc.
Proof.
  intros doc. subst doc. unfold default_service_configured.
  destruct (Data.config config_path Data.__init__) as [r self] eqn:H.
  cbn [fst]. split.
  - intros ->. apply config_returned in H
      as (Hwf & P & svc & p & Hsvc & HP & _ & _ & Hl & Ha & Ho).
    split; [done|]. rewrite Hsvc.
    destruct (decide (svc = "local")) as [->|Hnl].
    { left. split; [done|]. rewrite Hl in HP. by destruct (option_set _ _). }
    destruct (decide (svc = "azure")) as [->|Hna].
    { right. split; [done|]. rewrite Ha in HP.
      by destruct (option_set _ _), (option_set _ _). }
    by rewrite Ho in HP.
  - intros [Hwf Hdef].
    apply config_inv_doc in H as (P & Hl & Ha & _ & _ & Hout).
    destruct Hout as [(Hmal & _)|(_ & _ & Hout)];
      [destruct (malformed_not_wellformed _ Hmal Hwf)|].
    destruct Hdef as [[Hsvc Hset]|(Hsvc & Hact & Hkey)]; rewrite Hsvc in Hout.
    + rewrite Hset in Hl. simpl in Hout. rewrite Hl in Hout. by destruct Hout.
    + rewrite Hact, Hkey in Ha. simpl in Hout. rewrite Ha in Hout.
      by destruct Hout.
Qed.

(** X8. [config] only ever adds: on any object, a key the registry held
    before is still a key afterwards, and a metadata store that was set is
    still set, whatever the new document says and whether [config] returns
    or raises.  A backend whose options have been taken out of the
    configuration stays reachable on an object configured before. *)
Theorem config_never_unregisters (config_path : string) self0 :
  let self := (Data.config config_path self0).2 in
  (∀ k, is_Some (Data._providers self0 !! k) → is_Some (Data._providers self !! k))
  ∧ (is_Some (Data._db self0) → is_Some (Data._db self)).
Proof.
  intros self. subst self.
  destruct (Data.config config_path self0) as [r self] eqn:H. cbn [snd].
  apply config_inv_doc in H as (P & Hl & Ha & Ho & Hdb & Hout).
  assert (HP : ∀ k, is_Some (Data._providers self0 !! k) → is_Some (P !! k)).
  { intros k Hk. destruct (decide (k = "local")) as [->|Hnl].
    { rewrite Hl. by destruct (option_set _ _). }
    destruct (decide (k = "azure")) as [->|Hna].
    { rewrite Ha. by destruct (_ && _). }
    by rewrite Ho. }
  split.
  - intros k Hk. specialize (HP k Hk).
    destruct Hout as [(_ & _ & ->)|(_ & _ & Hout)]; [done|].
    destruct (getitem P _); destruct Hout as [_ ->]; [|done].
    rewrite lookup_insert. by case_decide.
  - intros Hset. rewrite Hdb. by destruct (eq_str _ _).
Qed.

(** X9. Configuring twice from the same document is configuring once: when
    [config] has returned, a second [config] of the resulting object returns
    and leaves the object as it is. *)
Theorem config_twice (config_path : string) self0 self1 :
  Data.config config_path self0 = (Returns tt, self1) →
  Data.config config_path self1 = (Returns tt, self1).
Proof.
  intros H1.
  pose proof (config_inv_doc _ _ _ _ H1) as (_ & _ & _ & _ & Hdb1 & _).
  apply config_returned in H1
    as (Hwf & P1 & svc & p & Hsvc & HP1 & Hprov1 & Hconf1 & Hl1 & Ha1 & Ho1).
  destruct (Data.config config_path self1) as [r2 self2] eqn:H2.
  apply config_inv_doc in H2 as (P2 & Hl2 & Ha2 & Ho2 & Hdb2 & Hout2).
  destruct Hout2 as [(Hmal & _)|(_ & Hconf2 & Hout2)];
    [destruct (malformed_not_wellformed _ Hmal Hwf)|].
  assert (HP2 : P2 = Data._providers self1).
  { apply map_eq. intros k. rewrite Hprov1.
    destruct (decide (k = "local")) as [->|Hnl].
    { rewrite Hl2, Hprov1, lookup_insert_ne, Hl1 by done.
      by destruct (option_set _ _). }
    destruct (decide (k = "azure")) as [->|Hna].
    { rewrite Ha2, Hprov1, lookup_insert_ne, Ha1 by done.
      by destruct (_ && _). }
    by rewrite Ho2, Hprov1. }
  assert (Hitem : getitem P2 (VStr svc) = Returns p).
  { rewrite HP2, Hprov1. simpl. rewrite lookup_insert.
    case_decide; [done|]. by rewrite HP1. }
  rewrite Hsvc, Hitem in Hout2. destruct Hout2 as [-> Hprov2].
  f_equal. destruct self1 as [db1 conf1 provs1], self2 as [db2 conf2 provs2].
  cbn [Data._db Data._conf Data._providers] in *. f_equal.
  - rewrite Hdb2, Hdb1. by destruct (eq_str _ _).
  - congruence.
  - rewrite Hprov2, HP2, Hprov1. by rewrite insert_insert_eq.
Qed.

End Reconfiguration.

Lemma config_twice_witness :
  Data.config (C := Ref.collaborators (Ref.doc_local "local"))
    "cloudmesh4.yaml" Data.__init__ = (Returns tt, Ref.self_local)
  ∧ Data.config (C := Ref.collaborators (Ref.doc_local "local"))
      "cloudmesh4.yaml" Ref.self_local = (Returns tt, Ref.self_local).
Proof.
  split; [reflexivity|].
  exact (config_twice (C := Ref.collaborators (Ref.doc_local "local"))
           "cloudmesh4.yaml" Data.__init__ Ref.self_local eq_refl).
Defined.

(** ** From one operation to the next *)

Section Resolved.
Context {D S : Type}.
Implicit Types (self : Data.t D S) (w : World D S).
Implicit Types (p : DBProvider.t D) (sp : StorageProvider.t S).

Lemma get_resolved self p sp file_name dest_folder f w :
  Data._db self = Some p →
  DBProvider.get p file_name (db w) = Some f →
  Data._providers self !! service f = Some sp →
  Data.get self file_name dest_folder w =
    (let '(r, s') :=
       StorageProvider.get sp f (or_else dest_folder ".") (store w) in
     (r, {| db := db w; store := s'; stdout := stdout w;
            calls := calls w ++
              [DbGet file_name;
               StorageGet (service f) f (or_else dest_folder ".")] |})).
Proof.
  intros Hdb Hget Hsp. run. rewrite Hdb; simpl. rewrite Hget; simpl.
  rewrite Hsp; simpl.
  destruct (StorageProvider.get sp f _ (store w)) as [r s'].
  by rewrite <- !app_assoc.
Qed.

Lemma delete_resolved self p sp file_name f w :
  Data._db self = Some p →
  DBProvider.get p file_name (db w) = Some f →
  Data._providers self !! service f = Some sp →
  Data.delete self file_name w =
    (let world d s cs :=
       {| db := d; store := s; stdout := stdout w; calls := calls w ++ cs |} in
     match StorageProvider.delete sp f (store w) with
     | (Raises e, s') =>
         (Raises e, world (db w) s' [DbGet file_name; StorageDelete (service f) f])
     | (Returns _, s') =>
         let '(r, d') := DBProvider.delete p f (db w) in
         (r, world d' s'
               [DbGet file_name; StorageDelete (service f) f; DbDelete f])
     end).
Proof.
  intros Hdb Hget Hsp. run. rewrite Hdb; simpl. rewrite Hget; simpl.
  rewrite Hsp; simpl.
  destruct (StorageProvider.delete sp f (store w)) as [[[]|e] s']; simpl.
  - destruct (DBProvider.delete p f (db w)) as [r d'].
    by rewrite <- !app_assoc.
  - by rewrite <- !app_assoc.
Qed.

End Resolved.

Section Lifecycle.
Context {D S : Type} {C : Collaborators D S}.
Implicit Types (self : Data.t D S) (w : World D S).
Implicit Types (p : DBProvider.t D) (sp : StorageProvider.t S).

(** Modelled from the spec: what the upload of the two storage services
    returns (their classes are absent from the sources).  Upload "returns a
    fully populated record with backend set to this variant's identifier". *)
Hypothesis local_upload : ∀ root file_path s f s',
  StorageProvider.add (LocalStorageProvider root) file_path s = (Returns f, s') →
  service f = "local".
Hypothesis azure_upload : ∀ act key container file_path s f s',
  StorageProvider.add (AzureStorageProvider act key container) file_path s
    = (Returns f, s') →
  service f = "azure".

(** After a [config] of a fresh object that returned, the record a
    registered provider uploads names a key under which that very provider
    is registered. *)
Lemma registry_names_uploader config_path self k sp file_path s f s' :
  Data.config config_path Data.__init__ = (Returns tt, self) →
  Data._providers self !! k = Some sp →
  StorageProvider.add sp file_path s = (Returns f, s') →
  Data._providers self !! service f = Some sp.
Proof.
  intros H Hk Hup.
  apply config_returned in H
    as (_ & P & svc & p & _ & HP & Hprov & _ & Hl & Ha & Ho).
  cbn [Data.__init__ Data._providers] in Hl, Ha, Ho.
  assert (HPsp : ∀ k' sp', P !! k' = Some sp' →
            StorageProvider.add sp' file_path s = (Returns f, s') →
            k' = service f).
  { intros k' sp' Hk' Hup'.
    destruct (decide (k' = "local")) as [->|Hnl].
    { rewrite Hl in Hk'. destruct (option_set _ _); [|by rewrite lookup_empty in Hk'].
      injection Hk' as <-. symmetry. eauto. }
    destruct (decide (k' = "azure")) as [->|Hna].
    { rewrite Ha in Hk'. destruct (_ && _); [|by rewrite lookup_empty in Hk'].
      injection Hk' as <-. symmetry. eauto. }
    by rewrite Ho, lookup_empty in Hk'. }
  assert (Hnd : ∀ k' sp', P !! k' = Some sp' → k' ≠ "default").
  { intros k' sp' Hk' ->. by rewrite Ho, lookup_empty in Hk'. }
  rewrite Hprov in Hk |- *. rewrite lookup_insert in Hk.
  case_decide as Hkd.
  - injection Hk as <-. rewrite <- (HPsp _ _ HP Hup).
    rewrite lookup_insert_ne; [done|]. intros Heq. by apply (Hnd _ _ HP).
  - rewrite <- (HPsp _ _ Hk Hup).
    rewrite lookup_insert_ne; [done|]. intros Heq. by apply (Hnd _ _ Hk).
Qed.

(** X10. After a [config] of a fresh object that returned, a file that
    [add] has stored is later served by the provider that uploaded it, under
    whatever name (or default) it was added: once the metadata store finds
    the added record under its name, [get] of that name asks this provider
    to download the record and [delete] asks it to remove the record, and
    only after a remove that returned is the store's [delete] called. *)
Theorem added_file_served_by_uploader config_path self p provider file_path
    dest_folder w f w1 :
  Data.config config_path Data.__init__ = (Returns tt, self) →
  Data._db self = Some p →
  Data.add self provider file_path w = (Returns f, w1) →
  DBProvider.get p (name f) (db w1) = Some f →
  ∃ sp,
    Data._providers self !! or_else provider "default" = Some sp
    ∧ StorageProvider.add sp file_path (store w) = (Returns f, store w1)
    ∧ Data.get self (name f) dest_folder w1 =
        (let '(r, s') :=
           StorageProvider.get sp f (or_else dest_folder ".") (store w1) in
         (r, {| db := db w1; store := s'; stdout := stdout w1;
                calls := calls w1 ++
                  [DbGet (name f);
                   StorageGet (service f) f (or_else dest_folder ".")] |}))
    ∧ Data.delete self (name f) w1 =
        (let world d s cs :=
           {| db := d; store := s; stdout := stdout w1; calls := calls w1 ++ cs |} in
         match StorageProvider.delete sp f (store w1) with
         | (Raises e, s') =>
             (Raises e,
              world (db w1) s' [DbGet (name f); StorageDelete (service f) f])
         | (Returns _, s') =>
             let '(r, d') := DBProvider.delete p f (db w1) in
             (r, world d' s'
                   [DbGet (name f); StorageDelete (service f) f; DbDelete f])
         end).
Proof.
  intros Hcfg Hdb Hadd Hfound.
  destruct (Data._providers self !! or_else provider "default") as [sp|] eqn:Hsp;
    [|by rewrite add_unresolved in Hadd].
  rewrite (add_resolved _ sp) in Hadd by done.
  destruct (StorageProvider.add sp file_path (store w)) as [[f'|e] s'] eqn:Hup;
    [|done].
  rewrite Hdb in Hadd.
  destruct (DBProvider.add p f' (db w)) as [[[]|e] d']; [|done].
  injection Hadd as -> <-. cbn [store].
  pose proof (registry_names_uploader _ _ _ _ _ _ _ _ Hcfg Hsp Hup) as Hsvc.
  exists sp. split_and!; [done|done| |].
  - by apply (get_resolved _ p sp).
  - by apply (delete_resolved _ p sp).
Qed.

End Lifecycle.

Lemma added_file_served_by_uploader_witness :
  let w1 := (Data.add Ref.self_local None "notes.txt" Ref.w0).2 in
  Data.config (C := Ref.collaborators (Ref.doc_local "local"))
    "cloudmesh4.yaml" Data.__init__ = (Returns tt, Ref.self_local)
  ∧ Data._db Ref.self_local = Some Ref.db_provider
  ∧ Data.add Ref.self_local None "notes.txt" Ref.w0 = (Returns Ref.notes, w1)
  ∧ DBProvider.get Ref.db_provider (name Ref.notes) (db w1) = Some Ref.notes
  ∧ (Data.get Ref.self_local "notes.txt" None w1).1 = Returns tt
  ∧ (Data.delete Ref.self_local "notes.txt" w1).1 = Returns tt.
Proof.
  intros w1. do 4 (split; [reflexivity|]).
  destruct (added_file_served_by_uploader
              (C := Ref.collaborators (Ref.doc_local "local"))
              (λ _, storage_upload_service "local")
              (λ _ _ _, storage_upload_service "azure")
              "cloudmesh4.yaml" Ref.self_local Ref.db_provider None "notes.txt"
              None Ref.w0 Ref.notes w1 eq_refl eq_refl eq_refl eq_refl)
    as (sp & _ & _ & Hget & Hdel).
  split; reflexivity.
Defined.

(** ** The command line *)

Section CommandLine.
Context {D S : Type} {C : Collaborators D S}.
Implicit Types (self : Data.t D S) (w : World D S) (arguments : Docopt.t).


Lemma config_fresh_returns (config_path : string) :
  wellformed (Config config_path) →
  default_service_configured (Config config_path) →
  ∃ self, Data.config config_path Data.__init__ = (Returns tt, self)
          ∧ Data._db self =
              if eq_str (option_value "data.default.db" (Config config_path)) "local"
              then Some (LocalDBProvider
                     (option_value "data.db.local.CMDATA_DB_FOLDER" (Config config_path)))
              else None.
Proof.
  intros Hwf Hdef.
  destruct (Data.config config_path Data.__init__) as [r self] eqn:H.
  exists self.
  apply config_inv_doc in H as (P & Hl & Ha & _ & Hdb & Hout).
  split; [|done]. f_equal.
  destruct Hout as [(Hmal & _)|(_ & _ & Hout)];
    [destruct (malformed_not_wellformed _ Hmal Hwf)|].
  destruct Hdef as [[Hsvc Hset]|(Hsvc & Hact & Hkey)]; rewrite Hsvc in Hout.
  - rewrite Hset in Hl. simpl in Hout. rewrite Hl in Hout. by destruct Hout.
  - rewrite Hact, Hkey in Ha. simpl in Hout. rewrite Ha in Hout.
    by destruct Hout.
Qed.


(** X12. Without [ls] or [dir] and with an empty [FILE] argument, the
    invocation configures and does nothing else: no operation runs, the
    world is untouched, and the outcome is the outcome of [config]. *)
Theorem main_without_file arguments w :
  Docopt.ls arguments = false →
  Docopt.dir arguments = false →
  truthy_str (Docopt.FILE arguments) = false →
  main arguments w = ((Data.config default_config_path Data.__init__).1, w).
Proof.
  intros Hls Hdir Hfile. unfold main. rewrite Hls, Hdir, Hfile.
  destruct (Data.config default_config_path Data.__init__) as [[[]|e] cd];
    [|done].
  by destruct (Docopt.add arguments), (Docopt.del arguments),
       (Docopt.get arguments).
Qed.

(** X13. [ls] and [dir] list the local store: on a configuration file that
    [config] accepts and whose [default.db] is [local], the invocation
    prints the header and one line per record of the store built from the
    [db.local] folder option and returns; the other arguments play no
    part, and no storage service is called. *)
Theorem main_ls_lists_local_store arguments w :
  let doc := Config default_config_path in
  let p := LocalDBProvider (option_value "data.db.local.CMDATA_DB_FOLDER" doc) in
  wellformed doc →
  default_service_configured doc →
  eq_str (option_value "data.default.db" doc) "local" = true →
  Docopt.ls arguments || Docopt.dir arguments = true →
  main arguments w =
    (Returns tt,
     {| db := db w; store := store w;
        stdout := stdout w ++ header :: map row (DBProvider.list_files p (db w));
        calls := calls w ++ [DbListFiles] |}).
Proof.
  intros doc p Hwf Hdef Hlocal Hls. subst doc p. unfold main.
  destruct (config_fresh_returns _ Hwf Hdef) as (cd & -> & Hdb).
  rewrite Hlocal in Hdb. rewrite Hls.
  erewrite bind_returns; [|by apply ls_with_store]. done.
Qed.

End CommandLine.

Lemma doc_local_accepted (db_name : string) :
  wellformed (Ref.doc_local db_name) ∧ default_service_configured (Ref.doc_local db_name).
Proof.
  split.
  - split_and!; [reflexivity..|]. intros Haz. vm_compute in Haz. discriminate.
  - left. split; vm_compute; reflexivity.
Qed.



Lemma main_without_file_witness :
  Docopt.ls Ref.cmd_add_nothing = false
  ∧ Docopt.dir Ref.cmd_add_nothing = false
  ∧ truthy_str (Docopt.FILE Ref.cmd_add_nothing) = false
  ∧ main (C := Ref.collaborators (Ref.doc_local "local")) Ref.cmd_add_nothing Ref.w0
    = (Returns tt, Ref.w0).
Proof.
  do 3 (split; [reflexivity|]).
  exact (main_without_file (C := Ref.collaborators (Ref.doc_local "local"))
           Ref.cmd_add_nothing Ref.w0 eq_refl eq_refl eq_refl).
Defined.

Lemma main_ls_lists_local_store_witness :
  wellformed (Ref.doc_local "local")
  ∧ default_service_configured (Ref.doc_local "local")
  ∧ eq_str (option_value "data.default.db" (Ref.doc_local "local")) "local" = true
  ∧ Docopt.ls Ref.cmd_ls || Docopt.dir Ref.cmd_ls = true
  ∧ stdout (main (C := Ref.collaborators (Ref.doc_local "local")) Ref.cmd_ls Ref.w1).2 =
      [" FILE                                SERVICE    SIZE       URL                                               ";
       " notes.txt                           local      42         local://notes.txt                                 "].
Proof.
  assert (Hlocal : eq_str (option_value "data.default.db" (Ref.doc_local "local")) "local"
                   = true) by (vm_compute; reflexivity).
  split; [exact (proj1 (doc_local_accepted "local"))|].
  split; [exact (proj2 (doc_local_accepted "local"))|].
  split; [exact Hlocal|]. split; [reflexivity|].
  rewrite (main_ls_lists_local_store (C := Ref.collaborators (Ref.doc_local "local"))
             Ref.cmd_ls Ref.w1 (proj1 (doc_local_accepted "local"))
             (proj2 (doc_local_accepted "local")) Hlocal eq_refl).
  reflexivity.
Defined.
